(** * BEMU VM manager: configuration resolution and process lifecycle

    A shallow embedding of [tools/gui_vm_manager.py]: the VMX descriptor
    parser, the SeaBIOS locator, the [VMConfig] command builder and the
    lifecycle methods of [VMManager] (start, stop, the polling callback),
    followed by the properties of the specification that concern them.

    Modelling conventions.
    - Text is modelled over the code points below 256: a [string] is a
      sequence of code points, one [ascii] each.
    - Paths follow [pathlib.PurePosixPath]: a root and a list of components.
    - Everything the program asks of its host (file contents, existence of
      paths, the environment, the outcome of spawning and signalling a
      process) is read from an explicit [Host] record, and everything it
      changes (Tk variables, the process table, the dialogs shown) is part
      of an explicit state that the methods thread through. *)

From Stdlib Require Import ZArith Ascii DecimalString.
From stdpp Require Import gmap strings list fin_maps.

Local Open Scope Z_scope.

(** ** Python string methods *)

Module Py.

(** [str.isspace] on one code point below 256. *)
Definition isspace (c : ascii) : bool :=
  let n := N_of_ascii c in
  ((9 <=? n) && (n <=? 13) || (28 <=? n) && (n <=? 32)
   || (n =? 133) || (n =? 160))%N.

(** [str.lower] on one code point below 256: the upper-case letters are
    A to Z and the Latin-1 capitals (192 to 222, the multiplication sign
    215 apart); each lies 32 below its lower-case form. *)
Definition lower_char (c : ascii) : ascii :=
  let n := N_of_ascii c in
  if ((65 <=? n) && (n <=? 90)
      || (192 <=? n) && (n <=? 222) && negb (n =? 215))%N
  then ascii_of_N (n + 32) else c.

Fixpoint lower (s : string) : string :=
  match s with
  | EmptyString => EmptyString
  | String c r => String (lower_char c) (lower r)
  end.

Fixpoint lstrip_by (p : ascii -> bool) (s : string) : string :=
  match s with
  | EmptyString => EmptyString
  | String c r => if p c then lstrip_by p r else s
  end.

Definition rstrip_by (p : ascii -> bool) (s : string) : string :=
  String.rev (lstrip_by p (String.rev s)).

Definition strip_by (p : ascii -> bool) (s : string) : string :=
  rstrip_by p (lstrip_by p s).

(** [s.strip()] *)
Definition strip : string -> string := strip_by isspace.

(** [c in chars] for a character and a string. *)
Fixpoint has_char (c : ascii) (chars : string) : bool :=
  match chars with
  | EmptyString => false
  | String a r => if decide (a = c) then true else has_char c r
  end.

(** [s.strip(chars)] *)
Definition strip_chars (chars : string) : string -> string :=
  strip_by (fun c => has_char c chars).

(** [s.startswith(prefix)] *)
Fixpoint startswith (s prefix : string) : bool :=
  match prefix, s with
  | EmptyString, _ => true
  | String a p, String b r => if decide (a = b) then startswith r p else false
  | String _ _, EmptyString => false
  end.

(** [s.endswith(suffix)] *)
Definition endswith (s suffix : string) : bool :=
  startswith (String.rev s) (String.rev suffix).

(** [s.split(sep, 1)] for a one-character separator that occurs in [s]:
    the text before its first occurrence and the text after it; [None]
    when the separator does not occur. *)
Fixpoint split_once (sep : ascii) (s : string) : option (string * string) :=
  match s with
  | EmptyString => None
  | String c r =>
      if decide (c = sep) then Some (EmptyString, r)
      else match split_once sep r with
           | Some (k, v) => Some (String c k, v)
           | None => None
           end
  end.

(** [s.split(sep)] for a one-character separator. *)
Fixpoint split (sep : ascii) (s : string) : list string :=
  match s with
  | EmptyString => [EmptyString]
  | String c r =>
      if decide (c = sep) then EmptyString :: split sep r
      else match split sep r with
           | w :: ws => String c w :: ws
           | [] => [String c EmptyString]
           end
  end.

(** [sep.join(parts)] *)
Fixpoint join (sep : string) (parts : list string) : string :=
  match parts with
  | [] => EmptyString
  | [w] => w
  | w :: ws => w +:+ sep +:+ join sep ws
  end.

(** [s.rfind(c)]: the index of the last occurrence of a character. *)
Fixpoint rfind (c : ascii) (s : string) : option nat :=
  match s with
  | EmptyString => None
  | String a r =>
      match rfind c r with
      | Some i => Some (S i)
      | None => if decide (a = c) then Some 0%nat else None
      end
  end.

(** [s[i:]] *)
Definition slice_from (i : nat) (s : string) : string :=
  String.substring i (String.length s - i) s.

(** [str(n)] for an integer. *)
Definition str_of_int (n : Z) : string :=
  NilZero.string_of_int (Z.to_int n).

Definition digit_value (c : ascii) : option Z :=
  let n := N_of_ascii c in
  if ((48 <=? n) && (n <=? 57))%N then Some (Z.of_N n - 48) else None.

(** The digits of a decimal literal, most significant first, with the
    single underscores Python allows between digits: [acc] is the value
    read so far, [after_digit] says whether the last character was a
    digit. *)
Fixpoint digits_value (s : string) (acc : Z) (after_digit : bool)
  : option Z :=
  match s with
  | EmptyString => if after_digit then Some acc else None
  | String c r =>
      match digit_value c with
      | Some d => digits_value r (10 * acc + d) true
      | None =>
          if decide (c = "_"%char) then
            if after_digit then digits_value r acc false else None
          else None
      end
  end.

(** [int(s)] for a string: surrounding white space, an optional sign and a
    decimal literal; [None] stands for [ValueError]. *)
Definition int_of_str (s : string) : option Z :=
  match strip s with
  | String "-" r => Z.opp <$> digits_value r 0 false
  | String "+" r => digits_value r 0 false
  | t => digits_value t 0 false
  end.

End Py.


(** ** Paths: [pathlib.PurePosixPath] *)

(** A path as pathlib keeps it once parsed: the root (empty for a relative
    path, one slash, or two for a path that starts with exactly two) and
    the components that follow it, none of them empty or a single dot. *)
Record Path := MkPath { root : string; _tail : list string }.

Global Instance Path_eq_dec : EqDecision Path.
Proof. solve_decision. Defined.

(** [os.sep] and [os.altsep] on a POSIX host. *)
Definition os_sep : ascii := "/"%char.
Definition os_altsep : option ascii := None.

(** [Path(s)] *)
Definition Path_of (s : string) : Path :=
  let r :=
    if negb (Py.startswith s "/") then ""
    else if Py.startswith s "//" && negb (Py.startswith s "///") then "//"
    else "/" in
  MkPath r (filter (fun x => x <> "" /\ x <> ".") (Py.split os_sep s)).

(** [str(p)] *)
Definition Path_str (p : Path) : string :=
  match root p, _tail p with
  | EmptyString, [] => "."
  | r, t => r +:+ Py.join "/" t
  end.

(** [bool(p)]: a path object defines neither [__bool__] nor [__len__], so
    every path is true, the path of the empty string included. *)
Definition Path_bool (p : Path) : bool := true.

(** [p.is_absolute()] *)
Definition is_absolute (p : Path) : bool := bool_decide (root p <> "").

(** [p / q] *)
Definition joinpath (p q : Path) : Path :=
  if is_absolute q then q else MkPath (root p) (_tail p ++ _tail q).

Infix "//" := joinpath (at level 40, left associativity).

(** [p.parent] *)
Definition parent (p : Path) : Path :=
  MkPath (root p) (removelast (_tail p)).

(** [p.name] *)
Definition name (p : Path) : string := List.last (_tail p) "".

(** [p.suffix]: the final component from its last dot on, when that dot is
    neither its first nor its last character (pathlib up to Python 3.12). *)
Definition suffix (p : Path) : string :=
  let n := name p in
  match Py.rfind "." n with
  | Some i =>
      if decide (0 < i < String.length n - 1)%nat then Py.slice_from i n
      else ""
  | None => ""
  end.

(** ** Exceptions *)

Inductive ExnClass :=
  | OSError | FileNotFoundError | UnicodeDecodeError | ValueError
  | TypeError | AttributeError | TclError | RuntimeError.

Global Instance ExnClass_eq_dec : EqDecision ExnClass.
Proof. solve_decision. Defined.

(** An exception: its class and its [str]. *)
Record Exn := MkExn { exn_class : ExnClass; exn_str : string }.

(** [isinstance(e, OSError)]: [FileNotFoundError] is a subclass. *)
Definition is_OSError (e : Exn) : bool :=
  match exn_class e with OSError | FileNotFoundError => true | _ => false end.

(** [isinstance(e, c)] for a class without subclasses here. *)
Definition is_class (c : ExnClass) (e : Exn) : bool :=
  bool_decide (exn_class e = c).

(** The result of an expression that may raise. *)
Inductive Res (A : Type) :=
  | Ok (a : A)
  | Raise (e : Exn).
Arguments Ok {A} a.
Arguments Raise {A} e.

(** ** The host *)

(** What opening a file and iterating over it yields: its lines in order,
    then the end of the file or an exception.  An exception in first place
    is a failing [open]. *)
Inductive FileStream :=
  | EOF
  | Fails (e : Exn)
  | Line (l : string) (rest : FileStream).

Inductive Signal := SIGINT | SIGTERM | SIGKILL.

Global Instance Signal_eq_dec : EqDecision Signal.
Proof. solve_decision. Defined.

(** What [subprocess.Popen(command)] does: it starts a process, or raises
    an exception. *)
Inductive PopenOutcome :=
  | Spawns
  | PopenRaises (e : Exn).

Record Host := {
  (** [open(p, "r", encoding="utf-8", errors="ignore")] and its lines *)
  fs_read : Path -> FileStream;
  (** [p.exists()], [p.is_file()], [p.resolve()] *)
  fs_exists : Path -> bool;
  fs_is_file : Path -> bool;
  fs_resolve : Path -> Path;
  (** [os.environ] *)
  environ : gmap string string;
  (** [Path(__file__).resolve()] and [Path.home()] *)
  module_file : Path;
  home : Path;
  (** the home directory of a user by name (the empty name is the current
      user), as [os.path.expanduser] finds it; [None] when it does not *)
  userhome : string -> option string;
  (** the outcome of [subprocess.Popen] on a command line *)
  popen_outcome : list string -> PopenOutcome;
  (** the exception [os.kill(pid, sig)] raises, if any *)
  kill_raises : nat -> Signal -> option Exn;
}.

(** [p.expanduser()] *)
Definition expanduser (h : Host) (p : Path) : Res Path :=
  match root p, _tail p with
  | EmptyString, String "~" user :: rest =>
      match userhome h user with
      | Some homedir =>
          if Py.startswith homedir "~" then
            Raise (MkExn RuntimeError "Could not determine home directory.")
          else
            let hp := Path_of homedir in
            Ok (MkPath (root hp) (_tail hp ++ rest))
      | None => Raise (MkExn RuntimeError "Could not determine home directory.")
      end
  | _, _ => Ok p
  end.

(** ** Constants *)

Definition DEFAULT_MEMORY : Z := 2048.
Definition DEFAULT_CPU_COUNT : Z := 2.
Definition DEFAULT_CPU_NAME : string := "v4004".
Definition DEFAULT_BIOS_NAME : string := "bios.bin".
Definition DEFAULT_MACHINE : string := "q35".

Definition DEFAULT_BIOS_DIRS (h : Host) : list Path :=
  [ parent (parent (module_file h)) // Path_of "pc-bios";
    Path_of (default "" (environ h !! "SEABIOS_DIR"));
    home h // Path_of ".local" // Path_of "share" // Path_of "seabios";
    Path_of "/usr/share/seabios";
    Path_of "/usr/local/share/seabios" ].

(** ** The VMX descriptor parser *)

(** A value of the parser's dictionary: a string or a path. *)
Inductive VmxValue :=
  | VStr (s : string)
  | VPath (p : Path).

Definition DISK_SUFFIXES : gset string :=
  {[ ".vmdk"; ".qcow2"; ".img"; ".raw" ]}.

(** The double quote, the character [value.strip] removes. *)
Definition dquote : string := String (ascii_of_nat 34) EmptyString.

(** One turn of the loop over the lines: the loop goes on with the
    dictionary as it is now, or it is left through [break] with the disk
    path found. *)
Inductive LineResult :=
  | Continue (data : gmap string VmxValue)
  | Break (disk_path : Path).

Definition vmx_line (h : Host) (vmx_path : Path)
    (data : gmap string VmxValue) (line : string) : LineResult :=
  let line := Py.strip line in
  if bool_decide (line = "") || Py.startswith line "#" then Continue data
  else
    match Py.split_once "=" line with
    | None => Continue data
    | Some (key, value) =>
        let key := Py.strip key in
        let value := Py.strip_chars dquote (Py.strip value) in
        let lowered_key := Py.lower key in
        if decide (lowered_key = "memsize") then
          Continue (<["memsize" := VStr value]> data)
        else if decide (lowered_key = "numvcpus") then
          Continue (<["numvcpus" := VStr value]> data)
        else if Py.endswith key ".fileName" && bool_decide (value <> "") then
          let candidate := Path_of value in
          let candidate :=
            if negb (is_absolute candidate)
            then fs_resolve h (parent vmx_path // candidate)
            else candidate in
          if bool_decide (Py.lower (suffix candidate) ∈ DISK_SUFFIXES)
             && fs_exists h candidate
          then Break candidate
          else Continue data
        else Continue data
    end.

(** How the [try] block ends: the loop is over (the file ended or a disk
    path was found), or an exception left it with the dictionary as filled
    so far. *)
Inductive ScanEnd :=
  | Done (data : gmap string VmxValue) (disk_path : option Path)
  | Raised (e : Exn) (data : gmap string VmxValue).

Fixpoint scan_lines (h : Host) (vmx_path : Path) (handle : FileStream)
    (data : gmap string VmxValue) : ScanEnd :=
  match handle with
  | EOF => Done data None
  | Fails e => Raised e data
  | Line l rest =>
      match vmx_line h vmx_path data l with
      | Continue data' => scan_lines h vmx_path rest data'
      | Break disk_path => Done data (Some disk_path)
      end
  end.

(** [except (OSError, UnicodeDecodeError)] *)
Definition parser_catches (e : Exn) : bool :=
  is_OSError e || is_class UnicodeDecodeError e.

Definition _parse_vmx_file (h : Host) (vmx_path : Path)
  : Res (gmap string VmxValue) :=
  match scan_lines h vmx_path (fs_read h vmx_path) ∅ with
  | Raised e data =>
      if parser_catches e then Ok data
      else Raise e
  | Done data disk_path =>
      match disk_path with
      | Some p =>
          if Path_bool p then Ok (<["disk" := VPath p]> data) else Ok data
      | None => Ok data
      end
  end.

(** ** The firmware locator *)

Fixpoint find_bios_in (h : Host) (dirs : list Path) : option Path :=
  match dirs with
  | [] => None
  | directory :: rest =>
      if negb (Path_bool directory) then find_bios_in h rest
      else
        let candidate := directory // Path_of DEFAULT_BIOS_NAME in
        if fs_is_file h candidate then Some candidate
        else find_bios_in h rest
  end.

Definition _find_default_bios (h : Host) : option Path :=
  find_bios_in h (DEFAULT_BIOS_DIRS h).

(** ** [VMConfig] and the command builder *)

Record VMConfig := {
  binary : Path;
  disk_image : option Path;
  memory_mb : Z;
  cpu_count : Z;
  cpu_model : string;
  bios : option Path;
  machine : string;
}.

(** The truth value of an [Optional[Path]]. *)
Definition opt_path_bool (o : option Path) : bool :=
  match o with
  | Some p => Path_bool p
  | None => false
  end.

Definition build_command (self : VMConfig) : list string :=
  let cmd :=
    [ Path_str (binary self);
      "-machine"; machine self;
      "-m"; Py.str_of_int (memory_mb self);
      "-smp"; Py.str_of_int (cpu_count self);
      "-cpu"; cpu_model self ] in
  let cmd :=
    match bios self with
    | Some b => if Path_bool b then cmd ++ ["-bios"; Path_str b] else cmd
    | None => cmd
    end in
  match disk_image self with
  | Some d =>
      if Path_bool d then
        if decide (suffix d = ".qcow2") then
          cmd ++ ["-drive"; "file=" +:+ Path_str d +:+ ",if=virtio,format=qcow2"]
        else cmd ++ ["-hda"; Path_str d]
      else cmd
  | None => cmd
  end.

(** ** The manager's state *)

(** A [tk.IntVar] by what its [get] does: the text it holds reads as an
    integer, or [get] raises [TclError]. *)
Inductive IntVar :=
  | IntText (n : Z)
  | OtherText (s : string).

Definition IntVar_get (v : IntVar) : Res Z :=
  match v with
  | IntText n => Ok n
  | OtherText _ => Raise (MkExn TclError "expected floating-point number")
  end.

(** A [subprocess.Popen] object: the process it stands for and the return
    code it has seen so far. *)
Record Popen := { pid : nat; returncode : option Z }.

(** A process of the host: its command line, the signals delivered to it
    in order, and its exit status once it has exited. *)
Record Process := {
  args : list string;
  signals : list Signal;
  exit_status : option Z;
}.

Inductive Dialog :=
  | showerror (title message : string)
  | showinfo (title message : string).

(** A callback registered with [self.after], and a started thread. *)
Inductive Callback := finalize_stop_callback.
Inductive Thread := monitor_thread.

Record VMManager := {
  binary_var : string;
  disk_var : string;
  memory_var : IntVar;
  cpus_var : IntVar;
  cpu_model_var : string;
  machine_var : string;
  bios_var : string;
  status_var : string;
  _vm_process : option Popen;
  _stop_event : bool;
}.

(** The manager with everything around it that its methods change: the
    host's process table (a process id is an index into it), the message
    boxes shown so far, the callbacks waiting in the Tk event loop with
    their delays in milliseconds, and the threads started. *)
Record State := {
  self : VMManager;
  processes : list Process;
  dialogs : list Dialog;
  after_queue : list (nat * Callback);
  threads : list Thread;
}.

Definition with_self (f : VMManager -> VMManager) (s : State) : State :=
  {| self := f (self s); processes := processes s; dialogs := dialogs s;
     after_queue := after_queue s; threads := threads s |}.

Definition with_processes (ps : list Process) (s : State) : State :=
  {| self := self s; processes := ps; dialogs := dialogs s;
     after_queue := after_queue s; threads := threads s |}.

Definition with_dialogs (ds : list Dialog) (s : State) : State :=
  {| self := self s; processes := processes s; dialogs := ds;
     after_queue := after_queue s; threads := threads s |}.

Definition with_after_queue (q : list (nat * Callback)) (s : State) : State :=
  {| self := self s; processes := processes s; dialogs := dialogs s;
     after_queue := q; threads := threads s |}.

Definition with_threads (ts : list Thread) (s : State) : State :=
  {| self := self s; processes := processes s; dialogs := dialogs s;
     after_queue := after_queue s; threads := ts |}.

Definition set_disk_var (v : string) (m : VMManager) : VMManager :=
  {| binary_var := binary_var m; disk_var := v; memory_var := memory_var m;
     cpus_var := cpus_var m; cpu_model_var := cpu_model_var m;
     machine_var := machine_var m; bios_var := bios_var m;
     status_var := status_var m; _vm_process := _vm_process m;
     _stop_event := _stop_event m |}.

Definition set_memory_var (v : IntVar) (m : VMManager) : VMManager :=
  {| binary_var := binary_var m; disk_var := disk_var m; memory_var := v;
     cpus_var := cpus_var m; cpu_model_var := cpu_model_var m;
     machine_var := machine_var m; bios_var := bios_var m;
     status_var := status_var m; _vm_process := _vm_process m;
     _stop_event := _stop_event m |}.

Definition set_cpus_var (v : IntVar) (m : VMManager) : VMManager :=
  {| binary_var := binary_var m; disk_var := disk_var m;
     memory_var := memory_var m; cpus_var := v;
     cpu_model_var := cpu_model_var m; machine_var := machine_var m;
     bios_var := bios_var m; status_var := status_var m;
     _vm_process := _vm_process m; _stop_event := _stop_event m |}.

Definition set_status_var (v : string) (m : VMManager) : VMManager :=
  {| binary_var := binary_var m; disk_var := disk_var m;
     memory_var := memory_var m; cpus_var := cpus_var m;
     cpu_model_var := cpu_model_var m; machine_var := machine_var m;
     bios_var := bios_var m; status_var := v;
     _vm_process := _vm_process m; _stop_event := _stop_event m |}.

Definition set_vm_process (v : option Popen) (m : VMManager) : VMManager :=
  {| binary_var := binary_var m; disk_var := disk_var m;
     memory_var := memory_var m; cpus_var := cpus_var m;
     cpu_model_var := cpu_model_var m; machine_var := machine_var m;
     bios_var := bios_var m; status_var := status_var m;
     _vm_process := v; _stop_event := _stop_event m |}.

Definition set_stop_event (v : bool) (m : VMManager) : VMManager :=
  {| binary_var := binary_var m; disk_var := disk_var m;
     memory_var := memory_var m; cpus_var := cpus_var m;
     cpu_model_var := cpu_model_var m; machine_var := machine_var m;
     bios_var := bios_var m; status_var := status_var m;
     _vm_process := _vm_process m; _stop_event := v |}.

(** ** Actions: state passing with exceptions *)

(** A method body: from the state before to its result, a value or an
    exception, and the state after.  What was changed before an exception
    stays changed. *)
Definition Act (A : Type) : Type := State -> Res A * State.

Definition ret {A} (a : A) : Act A := fun s => (Ok a, s).

Definition bind {A B} (m : Act A) (k : A -> Act B) : Act B :=
  fun s =>
    match m s with
    | (Ok a, s') => k a s'
    | (Raise e, s') => (Raise e, s')
    end.

Notation "'do' x <- m ; k" := (bind m (fun x => k))
  (at level 10, x name, m at level 100, k at level 200).
Notation "m ;; k" := (bind m (fun _ => k))
  (at level 100, k at level 200, right associativity).

Definition lift {A} (r : Res A) : Act A := fun s => (r, s).

Definition get_self : Act VMManager := fun s => (Ok (self s), s).

Definition update_self (f : VMManager -> VMManager) : Act unit :=
  fun s => (Ok tt, with_self f s).

(** [try: m  except <classes>: handler] *)
Definition try_except {A} (m : Act A) (classes : Exn -> bool)
    (handler : Exn -> Act A) : Act A :=
  fun s =>
    match m s with
    | (Raise e, s') => if classes e then handler e s' else (Raise e, s')
    | r => r
    end.

(** [try: m  finally: f] *)
Definition try_finally {A} (m : Act A) (f : Act unit) : Act A :=
  fun s =>
    match m s with
    | (r, s') =>
        match f s' with
        | (Ok _, s'') => (r, s'')
        | (Raise e, s'') => (Raise e, s'')
        end
    end.

(** [messagebox.showerror], [messagebox.showinfo] *)
Definition messagebox (d : Dialog) : Act unit :=
  fun s => (Ok tt, with_dialogs (dialogs s ++ [d]) s).

(** [self.after(ms, callback)] *)
Definition after (ms : nat) (cb : Callback) : Act unit :=
  fun s => (Ok tt, with_after_queue (after_queue s ++ [(ms, cb)]) s).

(** [threading.Thread(target=..., daemon=True).start()] *)
Definition start_thread (t : Thread) : Act unit :=
  fun s => (Ok tt, with_threads (threads s ++ [t]) s).

(** ** The child process *)

(** [self._vm_process.poll()]: the return code the object already holds,
    or else the exit status of its process, which the object then keeps;
    [None] while the process runs. *)
Definition poll : Act (option Z) :=
  fun s =>
    match _vm_process (self s) with
    | None => (Raise (MkExn AttributeError "poll"), s)
    | Some p =>
        match returncode p with
        | Some rc => (Ok (Some rc), s)
        | None =>
            match processes s !! pid p ≫= exit_status with
            | Some rc =>
                (Ok (Some rc),
                 with_self
                   (set_vm_process (Some {| pid := pid p; returncode := Some rc |}))
                   s)
            | None => (Ok None, s)
            end
        end
    end.

Definition deliver (sig : Signal) (pr : Process) : Process :=
  {| args := args pr; signals := signals pr ++ [sig];
     exit_status := exit_status pr |}.

(** [self._vm_process.send_signal(sig)]: nothing for a process known to
    have exited, else [os.kill]. *)
Definition send_signal (h : Host) (sig : Signal) : Act unit :=
  do rc <- poll;
  match rc with
  | Some _ => ret tt
  | None =>
      fun s =>
        match _vm_process (self s) with
        | None => (Raise (MkExn AttributeError "pid"), s)
        | Some p =>
            match kill_raises h (pid p) sig with
            | Some e => (Raise e, s)
            | None =>
                (Ok tt, with_processes (alter (deliver sig) (pid p) (processes s)) s)
            end
        end
  end.

(** [self._vm_process.terminate()] *)
Definition terminate (h : Host) : Act unit := send_signal h SIGTERM.

(** [subprocess.Popen(command)]: the new process takes the next free
    process id. *)
Definition Popen_start (h : Host) (command : list string) : Act Popen :=
  fun s =>
    match popen_outcome h command with
    | PopenRaises e => (Raise e, s)
    | Spawns =>
        (Ok {| pid := length (processes s); returncode := None |},
         with_processes
           (processes s ++ [{| args := command; signals := []; exit_status := None |}])
           s)
    end.

(** ** Values of the parser's dictionary as Python objects *)

(** [bool(v)] *)
Definition value_bool (v : VmxValue) : bool :=
  match v with
  | VStr s => bool_decide (s <> "")
  | VPath p => Path_bool p
  end.

(** [str(v)] *)
Definition value_str (v : VmxValue) : string :=
  match v with
  | VStr s => s
  | VPath p => Path_str p
  end.

(** [int(v)] *)
Definition value_int (v : VmxValue) : Res Z :=
  match v with
  | VStr s =>
      match Py.int_of_str s with
      | Some n => Ok n
      | None => Raise (MkExn ValueError "invalid literal for int() with base 10")
      end
  | VPath _ => Raise (MkExn TypeError "int() argument must be a string or a number")
  end.

(** [v.name] *)
Definition value_name (v : VmxValue) : Res string :=
  match v with
  | VPath p => Ok (name p)
  | VStr _ => Raise (MkExn AttributeError "name")
  end.

(** [a or b] on strings. *)
Definition str_or (a b : string) : string :=
  if bool_decide (a <> "") then a else b.

(** ** [VMManager]: loading a descriptor *)

Definition _apply_vmx_config (h : Host) (vmx_path : Path) : Act unit :=
  do vmx_data <- lift (_parse_vmx_file h vmx_path);
  let disk := vmx_data !! "disk" in
  match disk with
  | Some d =>
      if value_bool d then update_self (set_disk_var (value_str d))
      else update_self (set_disk_var (Path_str vmx_path))
  | None =>
      (* Fall back to storing the VMX path to let QEMU error if unsupported *)
      update_self (set_disk_var (Path_str vmx_path))
  end;;
  match vmx_data !! "memsize" with
  | Some v =>
      try_except
        (do n <- lift (value_int v); update_self (set_memory_var (IntText n)))
        (fun e => is_class ValueError e || is_class TclError e)
        (fun _ => ret tt)
  | None => ret tt
  end;;
  match vmx_data !! "numvcpus" with
  | Some v =>
      try_except
        (do n <- lift (value_int v); update_self (set_cpus_var (IntText n)))
        (fun e => is_class ValueError e || is_class TclError e)
        (fun _ => ret tt)
  | None => ret tt
  end;;
  do disk_details <-
    match disk with
    | Some d =>
        if value_bool d then
          do n <- lift (value_name d); ret ["disk: " +:+ n]
        else ret []
    | None => ret []
    end;
  let memory_details :=
    match vmx_data !! "memsize" with
    | Some v => ["memory: " +:+ value_str v +:+ " MB"]
    | None => []
    end in
  let cpu_details :=
    match vmx_data !! "numvcpus" with
    | Some v => ["vCPUs: " +:+ value_str v]
    | None => []
    end in
  let status_details := disk_details ++ memory_details ++ cpu_details in
  if bool_decide (status_details <> []) then
    update_self
      (set_status_var ("Loaded VMX (" +:+ Py.join ", " status_details +:+ ")"))
  else update_self (set_status_var "Loaded VMX configuration").

(** ** [VMManager]: VM lifecycle management *)

Definition _build_config (h : Host) : Act (option VMConfig) :=
  do me <- get_self;
  do numbers <-
    try_except
      (do memory_mb <- lift (IntVar_get (memory_var me));
       do cpus <- lift (IntVar_get (cpus_var me));
       ret (Some (memory_mb, cpus)))
      (fun e => is_class TypeError e || is_class TclError e || is_class ValueError e)
      (fun _ =>
         messagebox
           (showerror "Invalid Configuration"
              "Memory and CPU counts must be integers");;
         ret None);
  match numbers with
  | None => ret None
  | Some (memory_mb, cpus) =>
      let binary_value := Py.strip (binary_var me) in
      if negb (bool_decide (binary_value <> "")) then
        messagebox (showerror "Invalid Configuration" "Please choose a BEMU binary");;
        ret None
      else
        do binary <- lift (expanduser h (Path_of binary_value));
        let has_path_sep :=
          Py.has_char os_sep binary_value
          || match os_altsep with
             | Some altsep => Py.has_char altsep binary_value
             | None => false
             end in
        if has_path_sep && negb (fs_exists h binary) then
          messagebox
            (showerror "Invalid Configuration"
               ("BEMU binary '" +:+ Path_str binary +:+ "' does not exist"));;
          ret None
        else
          do disk <-
            (if bool_decide (disk_var me <> "")
             then do d <- lift (expanduser h (Path_of (disk_var me))); ret (Some d)
             else ret None);
          if opt_path_bool disk && negb (from_option (fs_exists h) false disk) then
            messagebox
              (showerror "Invalid Disk"
                 ("Disk image '" +:+ from_option Path_str "None" disk
                  +:+ "' does not exist"));;
            ret None
          else
            do bios <-
              (if bool_decide (bios_var me <> "")
               then do b <- lift (expanduser h (Path_of (bios_var me))); ret (Some b)
               else ret None);
            if opt_path_bool bios && negb (from_option (fs_exists h) false bios) then
              messagebox
                (showerror "Invalid BIOS"
                   ("SeaBIOS image '" +:+ from_option Path_str "None" bios
                    +:+ "' was not found"));;
              ret None
            else
              ret (Some
                     {| binary := binary;
                        disk_image := if opt_path_bool disk then disk else None;
                        memory_mb := memory_mb;
                        cpu_count := cpus;
                        cpu_model :=
                          str_or (Py.strip (cpu_model_var me)) DEFAULT_CPU_NAME;
                        bios := bios;
                        machine := str_or (machine_var me) DEFAULT_MACHINE |})
  end.

Definition start_vm (h : Host) : Act unit :=
  do me <- get_self;
  do running <-
    match _vm_process me with
    | Some _ => do rc <- poll; ret (bool_decide (rc = None))
    | None => ret false
    end;
  if running then
    messagebox (showinfo "VM Running" "The VM is already running")
  else
    do config <- _build_config h;
    match config with
    | None => ret tt
    | Some config =>
        let command := build_command config in
        update_self (set_status_var "Starting VM...");;
        try_except
          (do p <- Popen_start h command;
           update_self (set_vm_process (Some p));;
           update_self (set_stop_event false);;
           update_self (set_status_var "VM running");;
           start_thread monitor_thread)
          (fun _ => true)
          (fun exc =>
             if is_class FileNotFoundError exc then
               messagebox
                 (showerror "Launch Failed"
                    ("Could not find executable '"
                     +:+ Path_str (binary config) +:+ "'"));;
               update_self (set_status_var "Launch failed")
             else
               messagebox
                 (showerror "Launch Failed"
                    ("Failed to launch VM: " +:+ exn_str exc));;
               update_self (set_status_var "Launch failed"))
    end.

Definition stop_vm (h : Host) : Act unit :=
  do me <- get_self;
  do stopped <-
    match _vm_process me with
    | Some _ => do rc <- poll; ret (bool_decide (rc <> None))
    | None => ret true
    end;
  if stopped then update_self (set_status_var "No VM running")
  else
    update_self (set_status_var "Stopping VM...");;
    update_self (set_stop_event true);;
    try_finally
      (try_except (send_signal h SIGINT) (fun _ => true) (fun _ => terminate h))
      (after 100 finalize_stop_callback).

Definition _finalize_stop : Act unit :=
  do me <- get_self;
  do running <-
    match _vm_process me with
    | Some _ => do rc <- poll; ret (bool_decide (rc = None))
    | None => ret false
    end;
  if running then after 100 finalize_stop_callback
  else update_self (set_status_var "VM stopped").

(** The body of the monitor thread.  Its [wait] blocks while the process
    runs: [None] is the thread still blocked, and the body goes on once the
    process has exited. *)
Definition _monitor_process (s : State) : option (Res unit * State) :=
  match _vm_process (self s) with
  | None => Some (Ok tt, s)
  | Some _ =>
      match poll s with
      | (Ok None, _) => None
      | (Ok (Some _), s') =>
          if negb (_stop_event (self s')) then
            Some (update_self (set_status_var "VM exited") s')
          else Some (update_self (set_status_var "VM stopped") s')
      | (Raise e, s') => Some (Raise e, s')
      end
  end.

(** ** The surroundings of the manager *)

Definition run_callback (cb : Callback) : Act unit :=
  match cb with
  | finalize_stop_callback => _finalize_stop
  end.

(** One turn of the Tk event loop on the [after] queue: the callback that
    was registered first is taken off the queue and run.  Every callback of
    the program is registered with the same delay, so they come due in the
    order of registration. *)
Definition run_next_callback : Act unit :=
  fun s =>
    match after_queue s with
    | [] => (Ok tt, s)
    | (_, cb) :: q => run_callback cb (with_after_queue q s)
    end.

(** The state of an action's outcome, and [n] turns of the event loop. *)
Definition state_after (a : Act unit) (s : State) : State := (a s).2.

Definition run_callbacks (n : nat) (s : State) : State :=
  Nat.iter n (state_after run_next_callback) s.

(** The process with the given id exits with a status. *)
Definition process_exits (i : nat) (rc : Z) (s : State) : State :=
  with_processes
    (alter
       (fun pr =>
          {| args := args pr; signals := signals pr; exit_status := Some rc |})
       i (processes s))
    s.

(** The child process of the manager, when it has one, and whether that
    process is running: started and not yet exited. *)
Definition child (s : State) : option Process :=
  _vm_process (self s) ≫= fun p => processes s !! pid p.

Definition vm_running (s : State) : Prop :=
  exists p,
    _vm_process (self s) = Some p /\ returncode p = None /\
    processes s !! pid p ≫= exit_status = None.

(** The state once the process object has looked at its process: what
    [poll] leaves behind. *)
Definition refresh (s : State) : State := (poll s).2.

(** A forceful termination signal has reached the child process. *)
Definition escalated (s : State) : Prop :=
  exists pr, child s = Some pr /\ (SIGTERM ∈ signals pr \/ SIGKILL ∈ signals pr).

(** The lines [ls] followed by what [rest] yields. *)
Definition stream_app (ls : list string) (rest : FileStream) : FileStream :=
  foldr Line rest ls.


(** The disk path a line makes the parser stop at, if it does. *)
Definition disk_reference (h : Host) (vmx_path : Path) (line : string)
  : option Path :=
  match vmx_line h vmx_path ∅ line with
  | Break p => Some p
  | Continue _ => None
  end.

(** ** Hosts and states of the examples *)

(** A host given by the contents of its readable files and the list of the
    paths that exist (all of them regular files).  Relative paths resolve
    against [/work]; spawning and signalling succeed. *)
Definition sample_host (files : list (Path * FileStream)) (existing : list Path)
    (env : gmap string string) : Host :=
  {| fs_read := fun p =>
       match list_find (fun x => x.1 = p) files with
       | Some (_, (_, f)) => f
       | None => Fails (MkExn FileNotFoundError "No such file or directory")
       end;
     fs_exists := fun p => bool_decide (p ∈ existing);
     fs_is_file := fun p => bool_decide (p ∈ existing);
     fs_resolve := fun p => if is_absolute p then p else Path_of "/work" // p;
     environ := env;
     module_file := Path_of "/opt/bemu/tools/gui_vm_manager.py";
     home := Path_of "/home/user";
     userhome := fun u => if decide (u = "") then Some "/home/user" else None;
     popen_outcome := fun _ => Spawns;
     kill_raises := fun _ _ => None |}.

Definition empty_host : Host := sample_host [] [] ∅.

(** The manager as [__init__] leaves it on a host without firmware. *)
Definition fresh_manager : VMManager :=
  {| binary_var := "qemu-system-x86_64"; disk_var := "";
     memory_var := IntText DEFAULT_MEMORY; cpus_var := IntText DEFAULT_CPU_COUNT;
     cpu_model_var := DEFAULT_CPU_NAME; machine_var := DEFAULT_MACHINE;
     bios_var := ""; status_var := "Ready";
     _vm_process := None; _stop_event := false |}.

Definition fresh_state : State :=
  {| self := fresh_manager; processes := []; dialogs := [];
     after_queue := []; threads := [] |}.

(** The fresh state once [start_vm] has launched the VM. *)
Definition running_state : State := state_after (start_vm empty_host) fresh_state.

(** The fresh state with a memory size of zero typed into its field. *)
Definition zero_memory_state : State :=
  with_self (set_memory_var (IntText 0)) fresh_state.


Definition set_binary_var (v : string) (m : VMManager) : VMManager :=
  {| binary_var := v; disk_var := disk_var m; memory_var := memory_var m;
     cpus_var := cpus_var m; cpu_model_var := cpu_model_var m;
     machine_var := machine_var m; bios_var := bios_var m;
     status_var := status_var m; _vm_process := _vm_process m;
     _stop_event := _stop_event m |}.

Definition set_machine_var (v : string) (m : VMManager) : VMManager :=
  {| binary_var := binary_var m; disk_var := disk_var m;
     memory_var := memory_var m; cpus_var := cpus_var m;
     cpu_model_var := cpu_model_var m; machine_var := v;
     bios_var := bios_var m; status_var := status_var m;
     _vm_process := _vm_process m; _stop_event := _stop_event m |}.

(** The fresh state with a path to a missing binary in the binary field. *)
Definition missing_binary_state : State :=
  with_self (set_binary_var "/opt/missing/bemu") fresh_state.



(** The fresh state with one space in the machine field. *)
Definition blank_machine_state : State :=
  with_self (set_machine_var " ") fresh_state.

(** A host whose working directory holds a file [bios.bin], and no other
    file; [SEABIOS_DIR] is not set. *)
Definition cwd_bios_host : Host := sample_host [] [Path_of "bios.bin"] ∅.



(** A descriptor that names two disks, both present beside it. *)
Definition two_disks_vmx : list string :=
  [ "# two disks";
    "memsize = 4096";
    "scsi0:0.fileName = first.qcow2";
    "scsi0:1.fileName = second.img";
    "numvcpus = 4" ].

Definition two_disks_host : Host :=
  sample_host
    [(Path_of "/vm/a.vmx", stream_app two_disks_vmx EOF)]
    [Path_of "/vm/a.vmx"; Path_of "/vm/first.qcow2"; Path_of "/vm/second.img"] ∅.

(** A descriptor without a disk, and a host that holds it. *)
Definition diskless_vmx_host : Host :=
  sample_host
    [(Path_of "/vm/a.vmx", stream_app ["memsize = 1024"; "numvcpus = two"] EOF)]
    [Path_of "/vm/a.vmx"] ∅.

(** ** [VMManager]: construction and the file dialogs *)

Definition set_cpu_model_var (v : string) (m : VMManager) : VMManager :=
  {| binary_var := binary_var m; disk_var := disk_var m;
     memory_var := memory_var m; cpus_var := cpus_var m;
     cpu_model_var := v; machine_var := machine_var m;
     bios_var := bios_var m; status_var := status_var m;
     _vm_process := _vm_process m; _stop_event := _stop_event m |}.

Definition set_bios_var (v : string) (m : VMManager) : VMManager :=
  {| binary_var := binary_var m; disk_var := disk_var m;
     memory_var := memory_var m; cpus_var := cpus_var m;
     cpu_model_var := cpu_model_var m; machine_var := machine_var m;
     bios_var := v; status_var := status_var m;
     _vm_process := _vm_process m; _stop_event := _stop_event m |}.

(** The attributes once [__init__] has set the process and the stop event
    and [_create_widgets] has made the Tk variables. *)
Definition created_widgets : VMManager :=
  {| binary_var := ""; disk_var := "";
     memory_var := IntText DEFAULT_MEMORY; cpus_var := IntText DEFAULT_CPU_COUNT;
     cpu_model_var := DEFAULT_CPU_NAME; machine_var := DEFAULT_MACHINE;
     bios_var := ""; status_var := "Ready";
     _vm_process := None; _stop_event := false |}.

Definition _populate_defaults (h : Host) : Act unit :=
  let default_binary :=
    default (default "qemu-system-x86_64" (environ h !! "QEMU_BINARY"))
            (environ h !! "BEMU_BINARY") in
  update_self (set_binary_var default_binary);;
  let bios_path := _find_default_bios h in
  match bios_path with
  | Some b =>
      if Path_bool b then update_self (set_bios_var (Path_str b)) else ret tt
  | None => ret tt
  end;;
  update_self (set_cpu_model_var DEFAULT_CPU_NAME).

(** [VMManager()]: the manager after [__init__], with nothing around it
    yet. *)
Definition VMManager_init (h : Host) : State :=
  state_after (_populate_defaults h)
    {| self := created_widgets; processes := []; dialogs := [];
       after_queue := []; threads := [] |}.

(** The event handlers of the three Browse buttons.  [selected] is what
    [filedialog.askopenfilename] returns: the chosen file name, or the
    empty string when the dialog is cancelled. *)
Definition _choose_binary (selected : string) : Act unit :=
  if bool_decide (selected <> "") then update_self (set_binary_var selected)
  else ret tt.

Definition _choose_disk (h : Host) (selected : string) : Act unit :=
  if bool_decide (selected <> "") then
    let path := Path_of selected in
    if decide (Py.lower (suffix path) = ".vmx") then _apply_vmx_config h path
    else
      update_self (set_disk_var selected);;
      update_self (set_status_var "Ready")
  else ret tt.

Definition _choose_bios (selected : string) : Act unit :=
  if bool_decide (selected <> "") then update_self (set_bios_var selected)
  else ret tt.

(** ** Well-formed paths *)

(** The paths [Path] makes: a root of at most two slashes, and components
    that are not empty, not a single dot and hold no separator. *)
Definition wf_component (w : string) : Prop :=
  w <> "" /\ w <> "." /\ Py.has_char os_sep w = false.

Definition wf_path (p : Path) : Prop :=
  (root p = "" \/ root p = "/" \/ root p = "//") /\
  Forall wf_component (_tail p).

(** ** Lines of a descriptor, by what the parser does with them *)

(** The value a line gives to [key] ([memsize] or [numvcpus]): the line is
    neither blank nor a comment, it has an equals sign, and its key is [key]
    in some mix of cases. *)
Definition numeric_value (key : string) (l : string) : option string :=
  let line := Py.strip l in
  if bool_decide (line = "") || Py.startswith line "#" then None
  else
    match Py.split_once "=" line with
    | None => None
    | Some (k, v) =>
        if decide (Py.lower (Py.strip k) = key)
        then Some (Py.strip_chars dquote (Py.strip v))
        else None
    end.


(** The entries the loop stores are strings under the two numeric keys. *)
Definition numeric_only (d : gmap string VmxValue) : Prop :=
  forall k v, d !! k = Some v ->
    (k = "memsize" \/ k = "numvcpus") /\ exists s, v = VStr s.

(** ** The optional file fields of the form *)


(** ** More hosts and states of the examples *)

(** A host like [h] on which [Popen] has the outcome [o] for every
    command. *)
Definition with_popen_outcome (o : PopenOutcome) (h : Host) : Host :=
  {| fs_read := fs_read h; fs_exists := fs_exists h; fs_is_file := fs_is_file h;
     fs_resolve := fs_resolve h; environ := environ h;
     module_file := module_file h; home := home h; userhome := userhome h;
     popen_outcome := fun _ => o; kill_raises := kill_raises h |}.

(** A host that finds no command to execute. *)
Definition no_command_host : Host :=
  with_popen_outcome
    (PopenRaises (MkExn FileNotFoundError "No such file or directory"))
    empty_host.

(** The running state once its process has exited with the given status. *)
Definition exited_state (rc : Z) : State := process_exits 0 rc running_state.


(** A value between double quotes, as descriptors write it. *)
Definition quoted (s : string) : string := dquote +:+ s +:+ dquote.

(** The descriptor of the scenario: a memory size, a vCPU count and a disk
    beside the descriptor, all quoted. *)
Definition scenario_vmx : list string :=
  [ "memsize = " +:+ quoted "4096";
    "numvcpus = " +:+ quoted "4";
    "scsi0:0.fileName = " +:+ quoted "disk.qcow2" ].

Definition scenario_host : Host :=
  sample_host
    [(Path_of "/vm/guest.vmx", stream_app scenario_vmx EOF)]
    [Path_of "/vm/guest.vmx"; Path_of "/vm/disk.qcow2"] ∅.


(** A host like [h] on which [os.kill] raises [e] for every process and
    signal. *)
Definition with_kill_raising (e : Exn) (h : Host) : Host :=
  {| fs_read := fs_read h; fs_exists := fs_exists h; fs_is_file := fs_is_file h;
     fs_resolve := fs_resolve h; environ := environ h;
     module_file := module_file h; home := home h; userhome := userhome h;
     popen_outcome := popen_outcome h; kill_raises := fun _ _ => Some e |}.

(** A host that lets no signal through. *)
Definition no_signal_host : Host :=
  with_kill_raising (MkExn OSError "Operation not permitted") empty_host.

(** * Properties *)

(** ** The command builder *)

(** C5.  The command of every [VMConfig] is the nine fixed arguments, then
    the firmware pair when a firmware path is present, then the disk
    attachment: nothing for a configuration without a disk image, and for
    one with a disk image exactly one pair of arguments, the virtio drive
    specification that names the qcow2 format when the suffix of the image
    is [.qcow2] (compared as written, case included), and the legacy
    [-hda] flag with the path for every other image. *)
Theorem build_command_disk_attachment (c : VMConfig) :
  build_command c =
    [ Path_str (binary c); "-machine"; machine c;
      "-m"; Py.str_of_int (memory_mb c);
      "-smp"; Py.str_of_int (cpu_count c);
      "-cpu"; cpu_model c ]
    ++ match bios c with
       | Some b => ["-bios"; Path_str b]
       | None => []
       end
    ++ match disk_image c with
       | Some d =>
           if decide (suffix d = ".qcow2")
           then ["-drive"; "file=" +:+ Path_str d +:+ ",if=virtio,format=qcow2"]
           else ["-hda"; Path_str d]
       | None => []
       end.
Proof.
  unfold build_command, Path_bool.
  destruct (bios c) as [b|], (disk_image c) as [d|]; simpl;
    try destruct (decide (suffix d = ".qcow2")); reflexivity.
Qed.

(** The two scenarios of the specification: a [.qcow2] image goes through
    the virtio drive, an [.img] image through the legacy flag. *)
Example build_command_qcow2 :
  build_command
    {| binary := Path_of "bemu"; disk_image := Some (Path_of "x.qcow2");
       memory_mb := 2048; cpu_count := 2; cpu_model := "v4004";
       bios := None; machine := "q35" |}
  = ["bemu"; "-machine"; "q35"; "-m"; "2048"; "-smp"; "2"; "-cpu"; "v4004";
     "-drive"; "file=x.qcow2,if=virtio,format=qcow2"].
Proof. reflexivity. Qed.

Example build_command_img :
  build_command
    {| binary := Path_of "bemu"; disk_image := Some (Path_of "x.img");
       memory_mb := 2048; cpu_count := 2; cpu_model := "v4004";
       bios := Some (Path_of "/usr/share/seabios/bios.bin"); machine := "q35" |}
  = ["bemu"; "-machine"; "q35"; "-m"; "2048"; "-smp"; "2"; "-cpu"; "v4004";
     "-bios"; "/usr/share/seabios/bios.bin"; "-hda"; "x.img"].
Proof. reflexivity. Qed.

(** ** Starting while the VM runs *)

(** [poll] on a running process answers [None] and changes nothing. *)
Lemma poll_running (s : State) (p : Popen) :
  _vm_process (self s) = Some p -> returncode p = None ->
  processes s !! pid p ≫= exit_status = None ->
  poll s = (Ok None, s).
Proof. intros Hp Hrc Hex. unfold poll. now rewrite Hp, Hrc, Hex. Qed.

(** C2.  A call of [start_vm] while the child process runs ends at once
    with the information box that the VM is already running.  The state
    after it is the state before it with that one box added: the process
    table has no new process, the process object is the one stored before,
    every Tk variable keeps its value, and no thread or callback is
    added. *)
Theorem start_vm_rejected_while_running (h : Host) (s : State) :
  vm_running s ->
  start_vm h s =
    (Ok tt,
     with_dialogs
       (dialogs s ++ [showinfo "VM Running" "The VM is already running"]) s).
Proof.
  intros (p & Hp & Hrc & Hex).
  unfold start_vm, bind, get_self. rewrite Hp.
  rewrite (poll_running s p Hp Hrc Hex). reflexivity.
Qed.

(** C2 at the fresh manager once it has started its VM. *)
Lemma start_vm_rejected_while_running_witness :
  vm_running running_state /\
  start_vm empty_host running_state =
    (Ok tt,
     with_dialogs
       (dialogs running_state ++ [showinfo "VM Running" "The VM is already running"])
       running_state).
Proof.
  assert (H : vm_running running_state).
  { exists {| pid := 0; returncode := None |}. vm_compute. auto. }
  split; [exact H |].
  exact (start_vm_rejected_while_running empty_host running_state H).
Defined.

(** ** The descriptor parser *)
Section Parser.
Context (h : Host) (vmx_path : Path).

(** A line either leaves the loop with its disk path, whatever the
    dictionary holds, or goes on with a dictionary that has the same
    [disk] entry and no path value that was not there before. *)
Lemma vmx_line_cases (d : gmap string VmxValue) (l : string) :
  match disk_reference h vmx_path l with
  | Some x => vmx_line h vmx_path d l = Break x
  | None =>
      exists d', vmx_line h vmx_path d l = Continue d' /\
                 d' !! "disk" = d !! "disk" /\
                 ((forall k p, d !! k <> Some (VPath p)) ->
                  forall k p, d' !! k <> Some (VPath p))
  end.
Proof.
  unfold disk_reference, vmx_line.
  destruct (bool_decide (Py.strip l = "") || Py.startswith (Py.strip l) "#");
    [eauto |].
  destruct (Py.split_once "=" (Py.strip l)) as [[key value]|]; [| eauto].
  destruct (decide (Py.lower (Py.strip key) = "memsize")).
  { eexists; split; [reflexivity |]. split.
    - now rewrite lookup_insert_ne.
    - intros Hd k p. destruct (decide (k = "memsize")) as [->|Hk].
      + rewrite lookup_insert_eq. discriminate.
      + rewrite lookup_insert_ne by congruence. apply Hd. }
  destruct (decide (Py.lower (Py.strip key) = "numvcpus")).
  { eexists; split; [reflexivity |]. split.
    - now rewrite lookup_insert_ne.
    - intros Hd k p. destruct (decide (k = "numvcpus")) as [->|Hk].
      + rewrite lookup_insert_eq. discriminate.
      + rewrite lookup_insert_ne by congruence. apply Hd. }
  destruct (Py.endswith (Py.strip key) ".fileName" && _); [| eauto].
  destruct (bool_decide _ && fs_exists h _); eauto.
Qed.



(** The loop stores strings only. *)
Lemma scan_lines_strings (f : FileStream) :
  forall d,
    (forall k p, d !! k <> Some (VPath p)) ->
    match scan_lines h vmx_path f d with
    | Done d' _ | Raised _ d' => forall k p, d' !! k <> Some (VPath p)
    end.
Proof.
  induction f as [| e0 | l rest IH]; intros d Hd; simpl; auto.
  pose proof (vmx_line_cases d l) as Hc.
  destruct (disk_reference h vmx_path l).
  - now rewrite Hc.
  - destruct Hc as (d1 & -> & _ & Hstr). apply IH. auto.
Qed.

(** A line the parser stops at has a key that ends in [.fileName], and its
    path has a suffix of the allow-list and exists. *)
Lemma disk_reference_sound (l : string) (disk : Path) :
  disk_reference h vmx_path l = Some disk ->
  (exists key value,
     Py.split_once "=" (Py.strip l) = Some (key, value) /\
     Py.endswith (Py.strip key) ".fileName" = true) /\
  Py.lower (suffix disk) ∈ DISK_SUFFIXES /\
  fs_exists h disk = true.
Proof.
  unfold disk_reference, vmx_line.
  destruct (bool_decide (Py.strip l = "") || Py.startswith (Py.strip l) "#");
    [discriminate |].
  destruct (Py.split_once "=" (Py.strip l)) as [[key value]|]; [| discriminate].
  destruct (decide (Py.lower (Py.strip key) = "memsize")); [discriminate |].
  destruct (decide (Py.lower (Py.strip key) = "numvcpus")); [discriminate |].
  destruct (Py.endswith (Py.strip key) ".fileName") eqn:Hkey; [| discriminate].
  destruct (bool_decide (Py.strip_chars dquote (Py.strip value) <> ""));
    [| discriminate].
  simpl.
  match goal with
  | |- context [bool_decide (Py.lower (suffix ?c) ∈ DISK_SUFFIXES)] =>
      destruct (bool_decide (Py.lower (suffix c) ∈ DISK_SUFFIXES)) eqn:Hsuf;
      [| discriminate];
      destruct (fs_exists h c) eqn:Hex; [| discriminate]
  end.
  simpl. intros [= <-]. apply bool_decide_eq_true in Hsuf. eauto 10.
Qed.

End Parser.



(** The second disk line of that descriptor would be accepted on its own. *)
Example second_disk_also_matches :
  disk_reference two_disks_host (Path_of "/vm/a.vmx") "scsi0:1.fileName = second.img"
  = Some (Path_of "/vm/second.img").
Proof. vm_compute. reflexivity. Qed.




(** Every entry of a parsed descriptor but [disk] is a string. *)
Lemma parse_values_are_strings (h : Host) (vmx_path : Path)
    (data : gmap string VmxValue) (k : string) (v : VmxValue) :
  _parse_vmx_file h vmx_path = Ok data ->
  k <> "disk" -> data !! k = Some v -> exists s, v = VStr s.
Proof.
  unfold _parse_vmx_file. intros Hparse Hk Hv.
  pose proof (scan_lines_strings h vmx_path (fs_read h vmx_path) ∅) as Hs.
  assert (Hstr : forall d : gmap string VmxValue,
            (forall k p, d !! k <> Some (VPath p)) ->
            (d !! k = Some v \/ (exists p, <["disk" := VPath p]> d !! k = Some v)) ->
            exists s, v = VStr s).
  { intros d Hd [Hl | [p Hl]].
    - destruct v as [s | p]; [eauto | now apply Hd in Hl].
    - rewrite lookup_insert_ne in Hl by congruence.
      destruct v as [s | p']; [eauto | now apply Hd in Hl]. }
  destruct (scan_lines h vmx_path (fs_read h vmx_path) ∅) as [d o | e d];
    (specialize (Hs ltac:(intros k' p'; rewrite lookup_empty; discriminate))).
  - destruct o as [p|]; simpl in Hparse; injection Hparse as <-;
      apply (Hstr d Hs); eauto.
  - destruct (parser_catches e); [| discriminate].
    injection Hparse as <-. apply (Hstr d Hs); eauto.
Qed.


(** ** The configuration builder *)
Lemma str_or_nonempty (a b : string) : b <> "" -> str_or a b <> "".
Proof. unfold str_or. intros Hb. case_bool_decide; auto. Qed.

(** What a configuration that [_build_config] returns says about the
    fields it was built from.  Building changes nothing. *)
Lemma _build_config_Some (h : Host) (s s' : State) (cfg : VMConfig) :
  _build_config h s = (Ok (Some cfg), s') ->
  s' = s /\
  memory_var (self s) = IntText (memory_mb cfg) /\
  cpus_var (self s) = IntText (cpu_count cfg) /\
  Py.strip (binary_var (self s)) <> "" /\
  expanduser h (Path_of (Py.strip (binary_var (self s)))) = Ok (binary cfg) /\
  (Py.has_char os_sep (Py.strip (binary_var (self s))) = true ->
   fs_exists h (binary cfg) = true) /\
  cpu_model cfg = str_or (Py.strip (cpu_model_var (self s))) DEFAULT_CPU_NAME /\
  machine cfg = str_or (machine_var (self s)) DEFAULT_MACHINE /\
  (disk_var (self s) = "" -> disk_image cfg = None) /\
  (disk_var (self s) <> "" ->
   exists d, expanduser h (Path_of (disk_var (self s))) = Ok d /\
             fs_exists h d = true /\ disk_image cfg = Some d) /\
  (bios_var (self s) = "" -> bios cfg = None) /\
  (bios_var (self s) <> "" ->
   exists b, expanduser h (Path_of (bios_var (self s))) = Ok b /\
             fs_exists h b = true /\ bios cfg = Some b).
Proof.
  unfold _build_config, bind, get_self, try_except, lift, messagebox, ret.
  intros H. simpl in H.
  destruct (memory_var (self s)) as [m|] eqn:Em; simpl in H; [|discriminate].
  destruct (cpus_var (self s)) as [c|] eqn:Ec; simpl in H; [|discriminate].
  destruct (bool_decide (Py.strip (binary_var (self s)) <> "")) eqn:Hbin;
    simpl in H; [|discriminate].
  apply bool_decide_eq_true in Hbin.
  destruct (expanduser h (Path_of (Py.strip (binary_var (self s)))))
    as [bin|] eqn:Ebin; [|discriminate].
  rewrite orb_false_r in H.
  destruct (Py.has_char os_sep (Py.strip (binary_var (self s))) && negb (fs_exists h bin))
    eqn:Esep; [discriminate|].
  assert (Hsep : Py.has_char os_sep (Py.strip (binary_var (self s))) = true ->
                 fs_exists h bin = true).
  { intros Hs. rewrite Hs in Esep. simpl in Esep. now apply negb_false_iff. }
  clear Esep.
  destruct (bool_decide (disk_var (self s) <> "")) eqn:Ed; simpl in H;
    [ apply bool_decide_eq_true in Ed
    | apply bool_decide_eq_false, dec_stable in Ed ];
    [ destruct (expanduser h (Path_of (disk_var (self s)))) as [d|] eqn:Edisk;
        simpl in H; [|discriminate];
      destruct (fs_exists h d) eqn:Edx; simpl in H; [|discriminate] | ];
    (destruct (bool_decide (bios_var (self s) <> "")) eqn:Eb; simpl in H;
     [ apply bool_decide_eq_true in Eb
     | apply bool_decide_eq_false, dec_stable in Eb ];
     [ destruct (expanduser h (Path_of (bios_var (self s)))) as [b|] eqn:Ebios;
         simpl in H; [|discriminate];
       destruct (fs_exists h b) eqn:Ebx; simpl in H; [|discriminate] | ]);
    inversion H; subst; simpl;
    repeat split; auto; intros; try contradiction; try congruence; eauto.
Qed.

(** ** Loading a descriptor *)
(** C10.  When the parse of a descriptor yields no disk reference,
    [_apply_vmx_config] returns normally and leaves the path of the
    descriptor itself in the disk field.  Every configuration built from
    the state it leaves then has that path (user-expanded, and found to
    exist by the disk check) as its disk image. *)
Theorem apply_vmx_without_disk_stores_vmx_path (h : Host) (vmx_path : Path)
    (s : State) (data : gmap string VmxValue) :
  _parse_vmx_file h vmx_path = Ok data ->
  data !! "disk" = None ->
  exists s',
    _apply_vmx_config h vmx_path s = (Ok tt, s') /\
    disk_var (self s') = Path_str vmx_path /\
    (Path_str vmx_path <> "" ->
     forall cfg s'',
       _build_config h s' = (Ok (Some cfg), s'') ->
       exists d,
         expanduser h (Path_of (Path_str vmx_path)) = Ok d /\
         fs_exists h d = true /\
         disk_image cfg = Some d).
Proof.
  intros Hparse Hdisk.
  cut (exists s',
         _apply_vmx_config h vmx_path s = (Ok tt, s') /\
         disk_var (self s') = Path_str vmx_path).
  { intros (s' & Happly & Hvar). exists s'. split; [exact Happly |].
    split; [exact Hvar |]. intros Hne cfg s'' Hcfg.
    apply _build_config_Some in Hcfg.
    destruct Hcfg as (_ & _ & _ & _ & _ & _ & _ & _ & _ & Hd & _).
    rewrite Hvar in Hd. exact (Hd Hne). }
  assert (Hstr : forall k v, k <> "disk" -> data !! k = Some v -> exists t, v = VStr t)
    by (intros k v; apply (parse_values_are_strings h vmx_path data k v Hparse)).
  unfold _apply_vmx_config, bind, lift, try_except, update_self, ret.
  rewrite Hparse, Hdisk.
  destruct (data !! "memsize") as [v1|] eqn:Em;
    [ destruct (Hstr "memsize" v1 ltac:(discriminate) Em) as [t1 ->]; simpl;
      destruct (Py.int_of_str t1); simpl | ];
    (destruct (data !! "numvcpus") as [v2|] eqn:En;
     [ destruct (Hstr "numvcpus" v2 ltac:(discriminate) En) as [t2 ->]; simpl;
       destruct (Py.int_of_str t2); simpl | ]);
    eexists; (split; [reflexivity | reflexivity]).
Qed.

(** C10 at a descriptor that sets the memory size, gives a vCPU count that
    is no number, and names no disk. *)
Lemma apply_vmx_without_disk_stores_vmx_path_witness :
  exists s',
    _apply_vmx_config diskless_vmx_host (Path_of "/vm/a.vmx") fresh_state
      = (Ok tt, s') /\
    disk_var (self s') = Path_str (Path_of "/vm/a.vmx") /\
    (Path_str (Path_of "/vm/a.vmx") <> "" ->
     forall cfg s'',
       _build_config diskless_vmx_host s' = (Ok (Some cfg), s'') ->
       exists d,
         expanduser diskless_vmx_host (Path_of (Path_str (Path_of "/vm/a.vmx")))
           = Ok d /\
         fs_exists diskless_vmx_host d = true /\
         disk_image cfg = Some d).
Proof.
  apply (apply_vmx_without_disk_stores_vmx_path diskless_vmx_host
           (Path_of "/vm/a.vmx") fresh_state
           {[ "memsize" := VStr "1024"; "numvcpus" := VStr "two" ]}).
  - vm_compute. reflexivity.
  - vm_compute. reflexivity.
Defined.

(** Started after such a descriptor was loaded, the VM gets the descriptor
    as its disk through the legacy flag. *)
Example descriptor_without_disk_is_attached :
  let s1 := state_after (_apply_vmx_config diskless_vmx_host (Path_of "/vm/a.vmx"))
              fresh_state in
  disk_var (self s1) = "/vm/a.vmx" /\
  memory_var (self s1) = IntText 1024 /\
  cpus_var (self s1) = IntText 2 /\
  args <$> child (state_after (start_vm diskless_vmx_host) s1) =
    Some ["qemu-system-x86_64"; "-machine"; "q35"; "-m"; "1024"; "-smp"; "2";
          "-cpu"; "v4004"; "-hda"; "/vm/a.vmx"].
Proof. repeat split; vm_compute; reflexivity. Qed.

(** C6, amended.  A configuration that [_build_config] returns carries the
    integers the memory and vCPU fields hold, as they are (no sign or range
    check is applied to them), a CPU model that is not empty and a machine
    type that is not empty. *)
Theorem _build_config_fields (h : Host) (s s' : State) (cfg : VMConfig) :
  _build_config h s = (Ok (Some cfg), s') ->
  memory_var (self s) = IntText (memory_mb cfg) /\
  cpus_var (self s) = IntText (cpu_count cfg) /\
  cpu_model cfg <> "" /\
  machine cfg <> "".
Proof.
  intros H. apply _build_config_Some in H.
  destruct H as (_ & Hm & Hc & _ & _ & _ & Hcpu & Hmach & _).
  rewrite Hcpu, Hmach.
  repeat split; auto; apply str_or_nonempty; discriminate.
Qed.

(** C6, amended, at the fresh manager. *)
Lemma _build_config_fields_witness :
  memory_var (self fresh_state) = IntText 2048 /\
  cpus_var (self fresh_state) = IntText 2 /\
  "v4004" <> "" /\ "q35" <> "".
Proof.
  apply (_build_config_fields empty_host fresh_state fresh_state
           {| binary := Path_of "qemu-system-x86_64"; disk_image := None;
              memory_mb := 2048; cpu_count := 2; cpu_model := "v4004";
              bios := None; machine := "q35" |}).
  vm_compute. reflexivity.
Defined.

(** C6 as stated fails: with zero typed into the memory field a
    configuration is built, and its memory size is zero. *)
Lemma zero_memory_config_is_built :
  ~ (forall cfg s',
       _build_config empty_host zero_memory_state = (Ok (Some cfg), s') ->
       0 < memory_mb cfg /\ 0 < cpu_count cfg /\
       cpu_model cfg <> "" /\ machine cfg <> "").
Proof.
  intros H.
  destruct (H {| binary := Path_of "qemu-system-x86_64"; disk_image := None;
                 memory_mb := 0; cpu_count := 2; cpu_model := "v4004";
                 bios := None; machine := "q35" |} zero_memory_state)
    as [Hm _].
  - vm_compute. reflexivity.
  - simpl in Hm. lia.
Qed.

(** C8 at a machine field that holds one space: the field is blank after
    trimming, a configuration is built, and its machine type is the space,
    not the default. *)
Lemma blank_machine_is_kept :
  Py.strip (machine_var (self blank_machine_state)) = "" /\
  _build_config empty_host blank_machine_state =
    (Ok (Some {| binary := Path_of "qemu-system-x86_64"; disk_image := None;
                 memory_mb := 2048; cpu_count := 2; cpu_model := "v4004";
                 bios := None; machine := " " |}),
     blank_machine_state) /\
  " " <> DEFAULT_MACHINE.
Proof. repeat split; [vm_compute; reflexivity .. | discriminate]. Qed.



(** ** The firmware locator *)





(** C9 at a host where [SEABIOS_DIR] is not set and the working directory
    holds a [bios.bin]: the entry of the unset variable is the path of the
    empty string, it is not skipped, and the file beside the working
    directory is probed and returned. *)
Lemma unset_directory_is_probed :
  environ cwd_bios_host !! "SEABIOS_DIR" = None /\
  DEFAULT_BIOS_DIRS cwd_bios_host !! 1%nat = Some (Path_of "") /\
  fs_is_file cwd_bios_host (Path_of "/opt/bemu/pc-bios/bios.bin") = false /\
  _find_default_bios cwd_bios_host = Some (Path_of "bios.bin").
Proof. repeat split; vm_compute; reflexivity. Qed.

(** ** Starting with a missing binary *)

(** [poll] changes nothing but the return code the process object holds. *)
Lemma refresh_frame (s : State) :
  processes (refresh s) = processes s /\
  dialogs (refresh s) = dialogs s /\
  after_queue (refresh s) = after_queue s /\
  threads (refresh s) = threads s /\
  pid <$> _vm_process (self (refresh s)) = pid <$> _vm_process (self s) /\
  self (refresh s)
    = set_vm_process (_vm_process (self (refresh s))) (self s).
Proof.
  unfold refresh, poll.
  destruct s as [[] ? ? ? ?]; simpl.
  destruct _vm_process0 as [[i [rc|]]|]; simpl; auto 10.
  destruct (processes0 !! i ≫= exit_status); simpl; auto 10.
Qed.

(** The test [self._vm_process and self._vm_process.poll() is None] when no
    VM runs, and when one does. *)
Lemma running_check (s : State) :
  ~ vm_running s ->
  (match _vm_process (self s) with
   | Some _ => do rc <- poll; ret (bool_decide (rc = None))
   | None => ret false
   end) s = (Ok false, refresh s).
Proof.
  intros Hnot. unfold refresh, bind, ret, poll.
  destruct (_vm_process (self s)) as [p|] eqn:Hp; [| reflexivity].
  cbv beta. rewrite Hp.
  destruct (returncode p) as [rc|] eqn:Hrc; [reflexivity |].
  destruct (processes s !! pid p ≫= exit_status) as [rc|] eqn:Hex; [reflexivity |].
  exfalso. apply Hnot. exists p. auto.
Qed.

Lemma running_check_true (s : State) :
  vm_running s ->
  (match _vm_process (self s) with
   | Some _ => do rc <- poll; ret (bool_decide (rc = None))
   | None => ret false
   end) s = (Ok true, s).
Proof.
  intros (p & Hp & Hrc & Hex). rewrite Hp. unfold bind, ret.
  now rewrite (poll_running s p Hp Hrc Hex).
Qed.

Lemma vm_running_dec (s : State) : vm_running s \/ ~ vm_running s.
Proof.
  unfold vm_running.
  destruct (_vm_process (self s)) as [p|]; [| right; intros (? & ? & _); discriminate].
  destruct (returncode p) eqn:Hrc;
    [right; intros (? & [= <-] & ? & _); congruence |].
  destruct (processes s !! pid p ≫= exit_status) eqn:Hex;
    [right; intros (? & [= <-] & _ & ?); congruence |].
  left. eauto.
Qed.




(** ** Stopping *)

(** The polling callback sends no signal: it leaves the process table as it
    is, however often it runs. *)
Lemma _finalize_stop_processes (s : State) :
  processes (state_after _finalize_stop s) = processes s.
Proof.
  unfold state_after, _finalize_stop.
  unfold bind at 1. unfold get_self at 1. unfold bind at 1.
  destruct (vm_running_dec s) as [Hrun | Hnot].
  - rewrite (running_check_true s Hrun). reflexivity.
  - rewrite (running_check s Hnot). simpl. apply refresh_frame.
Qed.

Lemma run_next_callback_processes (s : State) :
  processes (state_after run_next_callback s) = processes s.
Proof.
  unfold state_after, run_next_callback.
  destruct (after_queue s) as [| [ms []] q] eqn:Hq; [reflexivity |].
  simpl. apply (_finalize_stop_processes (with_after_queue q s)).
Qed.

Lemma run_callbacks_processes (n : nat) (s : State) :
  processes (run_callbacks n s) = processes s.
Proof.
  induction n as [| n IH]; [reflexivity |].
  unfold run_callbacks in *. simpl. now rewrite run_next_callback_processes.
Qed.

(** While the VM runs, a turn of the event loop with the polling callback
    alone in the queue puts that callback back and changes nothing. *)
Lemma poll_again_while_running (s : State) :
  vm_running s ->
  after_queue s = [(100%nat, finalize_stop_callback)] ->
  state_after run_next_callback s = s.
Proof.
  intros (p & Hp & Hrc & Hex) Hq.
  unfold state_after, run_next_callback. rewrite Hq. simpl.
  unfold _finalize_stop.
  unfold bind at 1. unfold get_self at 1. unfold bind at 1.
  rewrite running_check_true by (exists p; auto).
  unfold after. destruct s; simpl in *. now subst.
Qed.

Lemma run_callbacks_while_running (n : nat) (s : State) :
  vm_running s ->
  after_queue s = [(100%nat, finalize_stop_callback)] ->
  run_callbacks n s = s.
Proof.
  intros Hrun Hq. induction n as [| n IH]; [reflexivity |].
  unfold run_callbacks in *. simpl. rewrite IH.
  now apply poll_again_while_running.
Qed.

(** Once the process has exited, the next turn of the event loop ends the
    polling: the status says so and the callback is not registered again. *)
Lemma polling_ends_after_exit (s : State) (p : Popen) (pr : Process) (rc : Z) :
  _vm_process (self s) = Some p ->
  processes s !! pid p = Some pr ->
  after_queue s = [(100%nat, finalize_stop_callback)] ->
  let s2 := state_after run_next_callback (process_exits (pid p) rc s) in
  status_var (self s2) = "VM stopped" /\ after_queue s2 = [] /\
  processes s2 = processes (process_exits (pid p) rc s).
Proof.
  intros Hp Hpr Hq.
  set (x := with_after_queue [] (process_exits (pid p) rc s)).
  assert (Hnot : ~ vm_running x).
  { intros (p' & Hp' & _ & Hex). simpl in Hp'. rewrite Hp in Hp'.
    injection Hp' as <-. simpl in Hex.
    rewrite list_lookup_alter_eq, Hpr in Hex. discriminate. }
  pose proof (refresh_frame x) as (Hps & _ & Haq & _ & _ & Hself).
  assert (Heq : state_after run_next_callback (process_exits (pid p) rc s)
                = with_self (set_status_var "VM stopped") (refresh x)).
  { unfold state_after, run_next_callback. simpl. rewrite Hq. simpl.
    fold x. unfold _finalize_stop.
    unfold bind at 1. unfold get_self at 1. unfold bind at 1.
    now rewrite (running_check x Hnot). }
  simpl. rewrite Heq. simpl. repeat split; [exact Haq | exact Hps].
Qed.

(** [send_signal] on a running process delivers the signal, or raises what
    [os.kill] raises. *)
Lemma send_signal_running (h : Host) (sig : Signal) (s : State) (p : Popen) :
  _vm_process (self s) = Some p ->
  returncode p = None ->
  processes s !! pid p ≫= exit_status = None ->
  send_signal h sig s =
    match kill_raises h (pid p) sig with
    | Some e => (Raise e, s)
    | None => (Ok tt, with_processes (alter (deliver sig) (pid p) (processes s)) s)
    end.
Proof.
  intros Hp Hrc Hlook. unfold send_signal, bind.
  rewrite (poll_running s p Hp Hrc Hlook). cbv beta iota. now rewrite Hp.
Qed.

(** The state [stop_vm] leaves behind for a running VM: the status and the
    stop event are set, a signal has been delivered unless sending failed,
    and the polling callback is registered. *)
Lemma stop_vm_running (h : Host) (s : State) (p : Popen) :
  _vm_process (self s) = Some p ->
  returncode p = None ->
  processes s !! pid p ≫= exit_status = None ->
  let marked :=
    with_self (set_stop_event true) (with_self (set_status_var "Stopping VM...") s) in
  let armed (x : State) :=
    with_after_queue (after_queue s ++ [(100%nat, finalize_stop_callback)]) x in
  let signalled (sig : Signal) :=
    with_processes (alter (deliver sig) (pid p) (processes s)) marked in
  stop_vm h s =
    match kill_raises h (pid p) SIGINT with
    | None => (Ok tt, armed (signalled SIGINT))
    | Some _ =>
        match kill_raises h (pid p) SIGTERM with
        | None => (Ok tt, armed (signalled SIGTERM))
        | Some e => (Raise e, armed marked)
        end
    end.
Proof.
  intros Hp Hrc Hlook marked armed signalled.
  assert (Hsend : forall sig,
            send_signal h sig marked =
              match kill_raises h (pid p) sig with
              | Some e => (Raise e, marked)
              | None => (Ok tt, signalled sig)
              end)
    by (intros sig; apply send_signal_running; assumption).
  unfold stop_vm, bind, get_self, ret, update_self, try_finally, try_except,
    terminate, after.
  rewrite Hp, (poll_running s p Hp Hrc Hlook). cbv beta iota.
  replace (bool_decide (@None Z <> None)) with false by reflexivity.
  cbv beta iota. fold marked. rewrite (Hsend SIGINT).
  destruct (kill_raises h (pid p) SIGINT); [| reflexivity].
  rewrite (Hsend SIGTERM).
  destruct (kill_raises h (pid p) SIGTERM); reflexivity.
Qed.

(** C1, amended.  For a stop request while the child process runs,
    [stop_vm] sets the status and the stop event and sends [SIGINT] first;
    [SIGTERM] is sent only when sending [SIGINT] itself raises.  In every
    case the polling callback is registered with a delay of 100 ms.  From
    then on no turn of the event loop sends a signal: the process table
    stays as [stop_vm] left it, and while the process runs the callback
    re-registers itself and changes nothing, with no bound after which a
    further signal is sent.  Once the process has exited, the next turn
    sets the status to [VM stopped] and the polling ends. *)
Theorem stop_vm_interrupts_then_polls (h : Host) (s : State) (p : Popen)
    (pr : Process) :
  _vm_process (self s) = Some p ->
  returncode p = None ->
  processes s !! pid p = Some pr ->
  exit_status pr = None ->
  let s1 := state_after (stop_vm h) s in
  (kill_raises h (pid p) SIGINT = None ->
   stop_vm h s = (Ok tt, s1) /\
   processes s1 = <[pid p := deliver SIGINT pr]> (processes s)) /\
  (forall e,
     kill_raises h (pid p) SIGINT = Some e ->
     kill_raises h (pid p) SIGTERM = None ->
     stop_vm h s = (Ok tt, s1) /\
     processes s1 = <[pid p := deliver SIGTERM pr]> (processes s)) /\
  status_var (self s1) = "Stopping VM..." /\
  _stop_event (self s1) = true /\
  after_queue s1 = after_queue s ++ [(100%nat, finalize_stop_callback)] /\
  (forall n, processes (run_callbacks n s1) = processes s1) /\
  (after_queue s = [] -> forall n, run_callbacks n s1 = s1) /\
  (after_queue s = [] ->
   forall rc,
     let s2 := state_after run_next_callback (process_exits (pid p) rc s1) in
     status_var (self s2) = "VM stopped" /\ after_queue s2 = [] /\
     processes s2 = processes (process_exits (pid p) rc s1)).
Proof.
  intros Hp Hrc Hpr Hex s1.
  assert (Hlook : processes s !! pid p ≫= exit_status = None)
    by (rewrite Hpr; exact Hex).
  assert (Halter : forall sig,
            alter (deliver sig) (pid p) (processes s)
            = <[pid p := deliver sig pr]> (processes s)).
  { intros sig. apply list_eq. intros i.
    destruct (decide (i = pid p)) as [-> | Hi].
    - rewrite list_lookup_alter_eq, Hpr. simpl.
      symmetry. apply list_lookup_insert_eq. eapply lookup_lt_Some; eauto.
    - rewrite list_lookup_alter_ne, list_lookup_insert_ne by congruence.
      reflexivity. }
  pose proof (stop_vm_running h s p Hp Hrc Hlook) as Hstop. simpl in Hstop.
  assert (Hrun : forall x, _vm_process (self x) = Some p ->
            (processes x = processes s \/
             exists sig, processes x = <[pid p := deliver sig pr]> (processes s)) ->
            vm_running x).
  { intros x Hx Hps. exists p. repeat split; auto.
    destruct Hps as [-> | [sig ->]]; [exact Hlook |].
    rewrite list_lookup_insert_eq by (eapply lookup_lt_Some; eauto).
    exact Hex. }
  subst s1. unfold state_after. rewrite Hstop.
  destruct (kill_raises h (pid p) SIGINT) as [e1|] eqn:Hint;
    [destruct (kill_raises h (pid p) SIGTERM) as [e2|] eqn:Hterm |].
  all: split; [intros; try discriminate; simpl; rewrite ?Halter; auto |].
  all: split; [intros; try discriminate; simpl; rewrite ?Halter; auto |].
  all: split; [reflexivity |].
  all: split; [reflexivity |].
  all: split; [reflexivity |].
  all: split; [intros n; rewrite run_callbacks_processes; reflexivity |].
  all: split;
    [ intros Hq n; apply run_callbacks_while_running;
      [ apply Hrun; simpl; rewrite ?Halter; eauto
      | simpl; rewrite Hq; reflexivity ]
    | intros Hq rc; eapply polling_ends_after_exit;
      simpl; rewrite ?Halter, ?Hq; eauto;
      apply list_lookup_insert_eq; eapply lookup_lt_Some; eauto ].
Qed.

(** C1, amended, at the fresh manager once it has started its VM. *)
Lemma stop_vm_interrupts_then_polls_witness :
  let s1 := state_after (stop_vm empty_host) running_state in
  stop_vm empty_host running_state = (Ok tt, s1) /\
  signals <$> child s1 = Some [SIGINT] /\
  after_queue s1 = [(100%nat, finalize_stop_callback)] /\
  forall n, run_callbacks n s1 = s1.
Proof.
  intros s1.
  destruct (stop_vm_interrupts_then_polls empty_host running_state
              {| pid := 0; returncode := None |}
              {| args := ["qemu-system-x86_64"; "-machine"; "q35"; "-m"; "2048";
                          "-smp"; "2"; "-cpu"; "v4004"];
                 signals := []; exit_status := None |}
              eq_refl eq_refl eq_refl eq_refl)
    as (Hint & _ & _ & _ & Hq & _ & Hpoll & _).
  destruct (Hint eq_refl) as [Hstop Hps].
  split; [exact Hstop |]. split; [vm_compute; reflexivity |].
  split; [exact Hq |]. exact (Hpoll eq_refl).
Defined.

(** C1 as stated fails: after a stop request to a running VM that ignores
    [SIGINT], there is no number of polls after which [SIGTERM] or
    [SIGKILL] has reached the process. *)
Lemma stop_vm_never_escalates :
  ~ exists n,
      escalated (run_callbacks n (state_after (stop_vm empty_host) running_state)).
Proof.
  intros [n (pr & Hchild & Hsig)].
  rewrite run_callbacks_while_running in Hchild.
  - vm_compute in Hchild. injection Hchild as <-. simpl in Hsig.
    destruct Hsig as [H | H]; apply list_elem_of_singleton in H; discriminate.
  - exists {| pid := 0; returncode := None |}. vm_compute. auto.
  - vm_compute. reflexivity.
Qed.

(** * Further properties of the code *)

(** ** The descriptor parser *)

Section ParserMore.
Context (h : Host) (vmx_path : Path).

(** What one line does, by the three readings of it: it stops the loop at
    its disk, or stores its value under one of the numeric keys, or leaves
    the dictionary as it is. *)
Lemma vmx_line_by_reading (d : gmap string VmxValue) (l : string) :
  vmx_line h vmx_path d l =
    match disk_reference h vmx_path l with
    | Some p => Break p
    | None =>
        match numeric_value "memsize" l, numeric_value "numvcpus" l with
        | Some v, _ => Continue (<["memsize" := VStr v]> d)
        | None, Some v => Continue (<["numvcpus" := VStr v]> d)
        | None, None => Continue d
        end
    end.
Proof.
  unfold disk_reference, numeric_value, vmx_line.
  destruct (bool_decide (Py.strip l = "") || Py.startswith (Py.strip l) "#");
    [reflexivity |].
  destruct (Py.split_once "=" (Py.strip l)) as [[key value]|]; [| reflexivity].
  destruct (decide (Py.lower (Py.strip key) = "memsize")) as [Hm | Hm];
    [reflexivity |].
  destruct (decide (Py.lower (Py.strip key) = "numvcpus")) as [Hc | Hc];
    [reflexivity |].
  destruct (Py.endswith (Py.strip key) ".fileName" && _); [| reflexivity].
  destruct (bool_decide _ && fs_exists h _); reflexivity.
Qed.

Lemma numeric_only_insert (d : gmap string VmxValue) (key s : string) :
  key = "memsize" \/ key = "numvcpus" ->
  numeric_only d -> numeric_only (<[key := VStr s]> d).
Proof.
  intros Hkey Hd k v. destruct (decide (k = key)) as [-> | Hne].
  - rewrite lookup_insert_eq. intros [= <-]. eauto.
  - rewrite lookup_insert_ne by congruence. apply Hd.
Qed.

Lemma scan_lines_shape (f : FileStream) :
  forall d, numeric_only d ->
    match scan_lines h vmx_path f d with
    | Done d' o =>
        numeric_only d' /\
        forall p, o = Some p -> exists l, disk_reference h vmx_path l = Some p
    | Raised _ d' => numeric_only d'
    end.
Proof.
  induction f as [| e | l rest IH]; intros d Hd; simpl.
  - split; [exact Hd | discriminate].
  - exact Hd.
  - rewrite vmx_line_by_reading.
    destruct (disk_reference h vmx_path l) as [p |] eqn:Hl.
    + split; [exact Hd |]. intros p' [= <-]. eauto.
    + destruct (numeric_value "memsize" l), (numeric_value "numvcpus" l);
        apply IH; auto using numeric_only_insert.
Qed.

End ParserMore.

(** Every entry of a parsed descriptor is a string under [memsize] or
    [numvcpus], or under [disk] a path with a suffix of the allow-list that
    exists. *)
Theorem parsed_descriptor_shape (h : Host) (vmx_path : Path)
    (data : gmap string VmxValue) (k : string) (v : VmxValue) :
  _parse_vmx_file h vmx_path = Ok data ->
  data !! k = Some v ->
  ((k = "memsize" \/ k = "numvcpus") /\ exists s, v = VStr s) \/
  (k = "disk" /\
   exists p, v = VPath p /\ Py.lower (suffix p) ∈ DISK_SUFFIXES /\
             fs_exists h p = true).
Proof.
  unfold _parse_vmx_file. intros Hparse Hk.
  pose proof (scan_lines_shape h vmx_path (fs_read h vmx_path) ∅) as Hshape.
  assert (Hempty : numeric_only ∅)
    by (intros k' v'; rewrite lookup_empty; discriminate).
  specialize (Hshape Hempty).
  destruct (scan_lines h vmx_path (fs_read h vmx_path) ∅) as [d o | e d].
  - destruct Hshape as [Hd Ho]. destruct o as [p |]; simpl in Hparse.
    + injection Hparse as <-.
      destruct (decide (k = "disk")) as [-> | Hne].
      * rewrite lookup_insert_eq in Hk. injection Hk as <-. right.
        destruct (Ho p eq_refl) as [l Hl].
        destruct (disk_reference_sound h vmx_path l p Hl) as (_ & Hs & He).
        eauto 10.
      * rewrite lookup_insert_ne in Hk by congruence. left. eauto.
    + injection Hparse as <-. left. eauto.
  - destruct (parser_catches e); [| discriminate].
    injection Hparse as <-. left. eauto.
Qed.

(** The same at the disk entry of a descriptor that names two disks. *)
Lemma parsed_descriptor_shape_witness :
  (("disk" = "memsize" \/ "disk" = "numvcpus") /\
   exists s, VPath (Path_of "/vm/first.qcow2") = VStr s) \/
  ("disk" = "disk" /\
   exists p, VPath (Path_of "/vm/first.qcow2") = VPath p /\
             Py.lower (suffix p) ∈ DISK_SUFFIXES /\
             fs_exists two_disks_host p = true).
Proof.
  apply (parsed_descriptor_shape two_disks_host (Path_of "/vm/a.vmx")
           (<["disk" := VPath (Path_of "/vm/first.qcow2")]>
              {[ "memsize" := VStr "4096" ]})
           "disk" (VPath (Path_of "/vm/first.qcow2"))).
  - vm_compute. reflexivity.
  - vm_compute. reflexivity.
Defined.






(** ** The configuration builder: what it accepts and what it reports *)

Ltac build_config_steps :=
  unfold _build_config, bind, get_self, try_except, lift, messagebox, ret;
  simpl.




(** Text that is no integer in the memory field or in the vCPU field is
    reported first, whatever the other fields hold. *)
Theorem _build_config_rejects_non_integers (h : Host) (s : State) :
  (exists t, memory_var (self s) = OtherText t) \/
  (exists t, cpus_var (self s) = OtherText t) ->
  _build_config h s =
    (Ok None,
     with_dialogs
       (dialogs s ++
        [showerror "Invalid Configuration" "Memory and CPU counts must be integers"])
       s).
Proof.
  intros [[t Ht] | [t Ht]]; build_config_steps; rewrite Ht.
  - reflexivity.
  - destruct (memory_var (self s)); reflexivity.
Qed.

(** The same with letters in the vCPU field and a missing binary. *)
Lemma _build_config_rejects_non_integers_witness :
  _build_config empty_host
    (with_self (set_cpus_var (OtherText "two")) missing_binary_state) =
    (Ok None,
     with_dialogs
       (dialogs (with_self (set_cpus_var (OtherText "two")) missing_binary_state) ++
        [showerror "Invalid Configuration" "Memory and CPU counts must be integers"])
       (with_self (set_cpus_var (OtherText "two")) missing_binary_state)).
Proof.
  apply (_build_config_rejects_non_integers empty_host
           (with_self (set_cpus_var (OtherText "two")) missing_binary_state)).
  right. exists "two". reflexivity.
Defined.

(** A binary field that is blank after trimming is reported, once the
    numbers are integers. *)
Theorem _build_config_rejects_blank_binary (h : Host) (s : State) (m c : Z) :
  memory_var (self s) = IntText m ->
  cpus_var (self s) = IntText c ->
  Py.strip (binary_var (self s)) = "" ->
  _build_config h s =
    (Ok None,
     with_dialogs
       (dialogs s ++
        [showerror "Invalid Configuration" "Please choose a BEMU binary"])
       s).
Proof.
  intros Hm Hc Hbin. build_config_steps. rewrite Hm, Hc. simpl.
  rewrite bool_decide_false by (intros H; apply H; exact Hbin). reflexivity.
Qed.

(** The same with white space alone in the binary field. *)
Lemma _build_config_rejects_blank_binary_witness :
  _build_config empty_host (with_self (set_binary_var "  ") fresh_state) =
    (Ok None,
     with_dialogs
       (dialogs (with_self (set_binary_var "  ") fresh_state) ++
        [showerror "Invalid Configuration" "Please choose a BEMU binary"])
       (with_self (set_binary_var "  ") fresh_state)).
Proof.
  apply (_build_config_rejects_blank_binary empty_host
           (with_self (set_binary_var "  ") fresh_state) 2048 2).
  - reflexivity.
  - reflexivity.
  - vm_compute. reflexivity.
Defined.





(** ** Starting: success, launch failure and the process table *)

(** [_build_config] does not look at the process object: with another one
    in its place it returns the same and shows the same. *)
Lemma _build_config_with_vm_process (h : Host) (s : State) (v : option Popen) :
  _build_config h (with_self (set_vm_process v) s) =
    ((_build_config h s).1, with_self (set_vm_process v) (_build_config h s).2).
Proof.
  build_config_steps.
  destruct (memory_var (self s)) as [m |]; simpl; [| reflexivity].
  destruct (cpus_var (self s)) as [c |]; simpl; [| reflexivity].
  destruct (bool_decide (Py.strip (binary_var (self s)) <> "")); simpl;
    [| reflexivity].
  destruct (expanduser h (Path_of (Py.strip (binary_var (self s)))))
    as [bin | e]; [| reflexivity].
  destruct ((Py.has_char os_sep (Py.strip (binary_var (self s))) || false)
            && negb (fs_exists h bin)); [reflexivity |].
  destruct (bool_decide (disk_var (self s) <> "")); simpl;
    [ destruct (expanduser h (Path_of (disk_var (self s)))) as [d | e];
      simpl; [| reflexivity];
      destruct (fs_exists h d); simpl; [| reflexivity] | ];
    (destruct (bool_decide (bios_var (self s) <> "")); simpl;
     [ destruct (expanduser h (Path_of (bios_var (self s)))) as [b | e];
       simpl; [| reflexivity];
       destruct (fs_exists h b); reflexivity | reflexivity ]).
Qed.

(** [poll] replaces at most the process object. *)
Lemma refresh_is_with_vm_process (s : State) :
  refresh s = with_self (set_vm_process (_vm_process (self (refresh s)))) s.
Proof.
  unfold refresh, poll.
  destruct s as [[] ps ds q ts]; simpl.
  destruct _vm_process0 as [[i [rc |]] |]; simpl; try reflexivity.
  destruct (ps !! i ≫= exit_status); reflexivity.
Qed.

Lemma _build_config_refresh (h : Host) (s : State) :
  _build_config h (refresh s) =
    ((_build_config h s).1,
     with_self (set_vm_process (_vm_process (self (refresh s))))
       (_build_config h s).2).
Proof.
  rewrite refresh_is_with_vm_process at 1. apply _build_config_with_vm_process.
Qed.

(** [start_vm] once no VM runs: it goes on with [_build_config] in the
    state [poll] has left. *)
Lemma start_vm_not_running (h : Host) (s : State) :
  ~ vm_running s ->
  start_vm h s =
    match _build_config h (refresh s) with
    | (Ok None, s1) => (Ok tt, s1)
    | (Raise e, s1) => (Raise e, s1)
    | (Ok (Some config), s1) =>
        match popen_outcome h (build_command config) with
        | Spawns =>
            (Ok tt,
             with_threads (threads s1 ++ [monitor_thread])
               (with_self
                  (fun m =>
                     set_status_var "VM running"
                       (set_stop_event false
                          (set_vm_process
                             (Some {| pid := length (processes s1);
                                      returncode := None |})
                             (set_status_var "Starting VM..." m))))
                  (with_processes
                     (processes s1 ++
                      [{| args := build_command config; signals := [];
                          exit_status := None |}])
                     s1)))
        | PopenRaises exc =>
            (Ok tt,
             with_self (set_status_var "Launch failed")
               (with_dialogs
                  (dialogs s1 ++
                   [showerror "Launch Failed"
                      (if is_class FileNotFoundError exc
                       then "Could not find executable '"
                            +:+ Path_str (binary config) +:+ "'"
                       else "Failed to launch VM: " +:+ exn_str exc)])
                  (with_self (set_status_var "Starting VM...") s1)))
        end
    end.
Proof.
  intros Hnot. unfold start_vm.
  unfold bind at 1. unfold get_self at 1. unfold bind at 1.
  rewrite (running_check s Hnot). unfold bind at 1.
  destruct (_build_config h (refresh s)) as [[[config |] | e] s1];
    [| reflexivity | reflexivity].
  unfold bind, update_self, try_except, Popen_start, start_thread, messagebox.
  destruct (popen_outcome h (build_command config)) as [| exc]; [reflexivity |].
  destruct (is_class FileNotFoundError exc); reflexivity.
Qed.

Lemma _build_config_refresh_Some (h : Host) (s : State) (cfg : VMConfig) :
  _build_config h s = (Ok (Some cfg), s) ->
  _build_config h (refresh s) = (Ok (Some cfg), refresh s).
Proof.
  intros H. rewrite _build_config_refresh, H. simpl.
  now rewrite <- refresh_is_with_vm_process.
Qed.

(** A successful start: when no VM runs, validation yields a configuration
    and the host can spawn its command, [start_vm] creates exactly one
    process, the command of the configuration, at the end of the process
    table, keeps a process object for it, clears the stop event, reports
    [VM running], starts one monitor thread and shows no box.  The VM then
    counts as running. *)
Theorem start_vm_spawns_one_process (h : Host) (s : State) (cfg : VMConfig) :
  ~ vm_running s ->
  _build_config h s = (Ok (Some cfg), s) ->
  popen_outcome h (build_command cfg) = Spawns ->
  let s' := state_after (start_vm h) s in
  start_vm h s = (Ok tt, s') /\
  processes s' =
    processes s ++
    [{| args := build_command cfg; signals := []; exit_status := None |}] /\
  _vm_process (self s') =
    Some {| pid := length (processes s); returncode := None |} /\
  status_var (self s') = "VM running" /\
  _stop_event (self s') = false /\
  dialogs s' = dialogs s /\
  threads s' = threads s ++ [monitor_thread] /\
  after_queue s' = after_queue s /\
  vm_running s'.
Proof.
  intros Hnot Hcfg Hspawn s'. subst s'. unfold state_after.
  pose proof (refresh_frame s) as (Hps & Hds & Hq & Hts & _ & _).
  rewrite (start_vm_not_running h s Hnot),
    (_build_config_refresh_Some h s cfg Hcfg), Hspawn.
  simpl. rewrite Hps, Hds, Hq, Hts.
  repeat split; try reflexivity.
  eexists. split; [reflexivity |]. split; [reflexivity |]. simpl.
  rewrite lookup_app_r by reflexivity.
  now rewrite Nat.sub_diag.
Qed.

(** The same at the fresh manager. *)
Lemma start_vm_spawns_one_process_witness :
  let s' := state_after (start_vm empty_host) fresh_state in
  start_vm empty_host fresh_state = (Ok tt, s') /\
  processes s' =
    processes fresh_state ++
    [{| args := ["qemu-system-x86_64"; "-machine"; "q35"; "-m"; "2048";
                 "-smp"; "2"; "-cpu"; "v4004"];
        signals := []; exit_status := None |}] /\
  _vm_process (self s') =
    Some {| pid := length (processes fresh_state); returncode := None |} /\
  status_var (self s') = "VM running" /\
  _stop_event (self s') = false /\
  dialogs s' = dialogs fresh_state /\
  threads s' = threads fresh_state ++ [monitor_thread] /\
  after_queue s' = after_queue fresh_state /\
  vm_running s'.
Proof.
  apply (start_vm_spawns_one_process empty_host fresh_state
           {| binary := Path_of "qemu-system-x86_64"; disk_image := None;
              memory_mb := 2048; cpu_count := 2; cpu_model := "v4004";
              bios := None; machine := "q35" |}).
  - intros (p & Hp & _). vm_compute in Hp. discriminate.
  - vm_compute. reflexivity.
  - reflexivity.
Defined.

(** A failed launch: when [Popen] raises, [start_vm] does not raise.  It
    shows one error box of title [Launch Failed], which names the binary
    for a [FileNotFoundError] and quotes the exception otherwise, reports
    [Launch failed], and creates no process and no thread; the manager
    keeps the process object it had. *)
Theorem start_vm_launch_failure (h : Host) (s : State) (cfg : VMConfig)
    (exc : Exn) :
  ~ vm_running s ->
  _build_config h s = (Ok (Some cfg), s) ->
  popen_outcome h (build_command cfg) = PopenRaises exc ->
  let s' := state_after (start_vm h) s in
  start_vm h s = (Ok tt, s') /\
  dialogs s' =
    dialogs s ++
    [showerror "Launch Failed"
       (if is_class FileNotFoundError exc
        then "Could not find executable '" +:+ Path_str (binary cfg) +:+ "'"
        else "Failed to launch VM: " +:+ exn_str exc)] /\
  status_var (self s') = "Launch failed" /\
  processes s' = processes s /\
  threads s' = threads s /\
  pid <$> _vm_process (self s') = pid <$> _vm_process (self s) /\
  ~ vm_running s'.
Proof.
  intros Hnot Hcfg Hraise s'. subst s'. unfold state_after.
  pose proof (refresh_frame s) as (Hps & Hds & Hq & Hts & Hpid & _).
  rewrite (start_vm_not_running h s Hnot),
    (_build_config_refresh_Some h s cfg Hcfg), Hraise.
  simpl. rewrite Hps, Hds, Hts.
  repeat split; try reflexivity; try exact Hpid.
  intros (p & Hp & Hrc & Hex). simpl in Hp, Hex. rewrite Hps in Hex.
  unfold refresh, poll in Hp.
  destruct (_vm_process (self s)) as [[i [rc |]] |] eqn:Hold;
    simpl in Hp; rewrite ?Hold in Hp.
  - injection Hp as <-. discriminate.
  - destruct (processes s !! i ≫= exit_status) eqn:Hlook;
      simpl in Hp; rewrite ?Hold in Hp.
    + injection Hp as <-. discriminate.
    + injection Hp as <-. apply Hnot.
      exists {| pid := i; returncode := None |}. auto.
  - discriminate.
Qed.

(** The same at the fresh manager on a host that finds no command. *)
Lemma start_vm_launch_failure_witness :
  let s' := state_after (start_vm no_command_host) fresh_state in
  start_vm no_command_host fresh_state = (Ok tt, s') /\
  dialogs s' =
    dialogs fresh_state ++
    [showerror "Launch Failed"
       (if is_class FileNotFoundError
             (MkExn FileNotFoundError "No such file or directory")
        then "Could not find executable '"
             +:+ Path_str (Path_of "qemu-system-x86_64") +:+ "'"
        else "Failed to launch VM: " +:+ "No such file or directory")] /\
  status_var (self s') = "Launch failed" /\
  processes s' = processes fresh_state /\
  threads s' = threads fresh_state /\
  pid <$> _vm_process (self s') = pid <$> _vm_process (self fresh_state) /\
  ~ vm_running s'.
Proof.
  apply (start_vm_launch_failure no_command_host fresh_state
           {| binary := Path_of "qemu-system-x86_64"; disk_image := None;
              memory_mb := 2048; cpu_count := 2; cpu_model := "v4004";
              bios := None; machine := "q35" |}
           (MkExn FileNotFoundError "No such file or directory")).
  - intros (p & Hp & _). vm_compute in Hp. discriminate.
  - vm_compute. reflexivity.
  - reflexivity.
Defined.

(** [_build_config] leaves the process table, the threads, the callbacks
    and the manager as they are. *)
Lemma _build_config_keeps (h : Host) (s : State) :
  let s' := (_build_config h s).2 in
  self s' = self s /\ processes s' = processes s /\
  threads s' = threads s /\ after_queue s' = after_queue s.
Proof.
  build_config_steps.
  destruct (memory_var (self s)) as [m |]; simpl; [| auto].
  destruct (cpus_var (self s)) as [c |]; simpl; [| auto].
  destruct (bool_decide (Py.strip (binary_var (self s)) <> "")); simpl; [| auto].
  destruct (expanduser h (Path_of (Py.strip (binary_var (self s)))))
    as [bin | e]; [| auto].
  destruct ((Py.has_char os_sep (Py.strip (binary_var (self s))) || false)
            && negb (fs_exists h bin)); [auto |].
  destruct (bool_decide (disk_var (self s) <> "")); simpl;
    [ destruct (expanduser h (Path_of (disk_var (self s)))) as [d | e];
      simpl; [| auto];
      destruct (fs_exists h d); simpl; [| auto] | ];
    (destruct (bool_decide (bios_var (self s) <> "")); simpl;
     [ destruct (expanduser h (Path_of (bios_var (self s)))) as [b | e];
       simpl; [| auto];
       destruct (fs_exists h b); simpl; auto | auto ]).
Qed.

(** One child at a time: whatever the state, [start_vm] leaves the process
    table as it is, or (only when no VM runs) adds one process at its end
    and takes that process as the child.  It never changes or removes an
    entry. *)
Theorem start_vm_process_table (h : Host) (s : State) :
  let s' := state_after (start_vm h) s in
  processes s' = processes s \/
  (~ vm_running s /\
   exists command,
     processes s' =
       processes s ++ [{| args := command; signals := []; exit_status := None |}] /\
     _vm_process (self s') =
       Some {| pid := length (processes s); returncode := None |}).
Proof.
  intros s'. subst s'. unfold state_after.
  destruct (vm_running_dec s) as [Hrun | Hnot].
  - left. unfold start_vm.
    unfold bind at 1. unfold get_self at 1. unfold bind at 1.
    rewrite (running_check_true s Hrun). reflexivity.
  - rewrite (start_vm_not_running h s Hnot).
    pose proof (refresh_frame s) as (Hps & _).
    pose proof (_build_config_keeps h (refresh s)) as (_ & Hkeep & _).
    simpl in Hkeep. rewrite Hps in Hkeep.
    destruct (_build_config h (refresh s)) as [[[config |] | e] s1];
      simpl in Hkeep; [| left; exact Hkeep | left; exact Hkeep].
    destruct (popen_outcome h (build_command config)) as [| exc]; simpl.
    + right. split; [exact Hnot |]. exists (build_command config).
      rewrite Hkeep. split; reflexivity.
    + left. exact Hkeep.
Qed.

(** ** Stopping when no VM runs, and the monitor thread *)

(** [stop_vm] once no VM runs. *)
Lemma stop_vm_not_running (h : Host) (s : State) :
  ~ vm_running s ->
  stop_vm h s = (Ok tt, with_self (set_status_var "No VM running") (refresh s)).
Proof.
  intros Hnot.
  unfold stop_vm. unfold bind at 1. unfold get_self at 1. unfold bind at 1.
  assert (Hcheck :
    (match _vm_process (self s) with
     | Some _ => do rc <- poll; ret (bool_decide (rc <> None))
     | None => ret true
     end) s = (Ok true, refresh s)).
  { unfold refresh, bind, ret, poll.
    destruct (_vm_process (self s)) as [p |] eqn:Hp; [| reflexivity].
    cbv beta. rewrite Hp.
    destruct (returncode p) as [rc |] eqn:Hrc; [reflexivity |].
    destruct (processes s !! pid p ≫= exit_status) as [rc |] eqn:Hex;
      [reflexivity |].
    exfalso. apply Hnot. exists p. auto. }
  rewrite Hcheck. reflexivity.
Qed.

(** Nothing to stop: when no VM runs (none was started, or the one started
    has exited), [stop_vm] reports [No VM running] and does nothing else: no
    signal is sent, the stop event stays as it is and no callback is
    registered. *)
Theorem stop_vm_without_vm (h : Host) (s : State) :
  ~ vm_running s ->
  stop_vm h s = (Ok tt, with_self (set_status_var "No VM running") (refresh s)) /\
  processes (refresh s) = processes s /\
  after_queue (refresh s) = after_queue s /\
  _stop_event (self (refresh s)) = _stop_event (self s).
Proof.
  intros Hnot.
  pose proof (refresh_frame s) as (Hps & _ & Hq & _ & _ & Hself).
  repeat split; auto; [| rewrite Hself; reflexivity].
  exact (stop_vm_not_running h s Hnot).
Qed.

(** The same at the fresh manager, and at one whose VM has exited. *)
Lemma stop_vm_without_vm_witness :
  (stop_vm empty_host fresh_state =
     (Ok tt, with_self (set_status_var "No VM running") (refresh fresh_state)) /\
   processes (refresh fresh_state) = processes fresh_state /\
   after_queue (refresh fresh_state) = after_queue fresh_state /\
   _stop_event (self (refresh fresh_state)) = _stop_event (self fresh_state)) /\
  (stop_vm empty_host (exited_state 0) =
     (Ok tt, with_self (set_status_var "No VM running") (refresh (exited_state 0))) /\
   processes (refresh (exited_state 0)) = processes (exited_state 0) /\
   after_queue (refresh (exited_state 0)) = after_queue (exited_state 0) /\
   _stop_event (self (refresh (exited_state 0))) = _stop_event (self (exited_state 0))).
Proof.
  split.
  - apply (stop_vm_without_vm empty_host fresh_state).
    intros (p & Hp & _). vm_compute in Hp. discriminate.
  - apply (stop_vm_without_vm empty_host (exited_state 0)).
    intros (p & Hp & _ & Hex). vm_compute in Hp. injection Hp as <-.
    vm_compute in Hex. discriminate.
Defined.

(** The monitor thread once the process has exited. *)
Lemma _monitor_process_exited (s : State) (p : Popen) (rc : Z) :
  _vm_process (self s) = Some p ->
  returncode p = None ->
  processes s !! pid p ≫= exit_status = Some rc ->
  _monitor_process s =
    Some (Ok tt,
          with_self
            (set_status_var (if _stop_event (self s) then "VM stopped" else "VM exited"))
            (with_self
               (set_vm_process (Some {| pid := pid p; returncode := Some rc |})) s)).
Proof.
  intros Hp Hrc Hex. unfold _monitor_process, poll.
  rewrite Hp, Hrc, Hex. simpl. destruct (_stop_event (self s)); reflexivity.
Qed.

(** The monitor thread waits while the VM runs.  Once the process has
    exited it returns, with the status [VM stopped] if the stop event is
    set and [VM exited] if it is not; it sends nothing to the process, and
    the process object then knows the exit status. *)
Theorem monitor_reports_exit (s : State) :
  (vm_running s -> _monitor_process s = None) /\
  (forall p rc,
     _vm_process (self s) = Some p ->
     returncode p = None ->
     processes s !! pid p ≫= exit_status = Some rc ->
     exists s',
       _monitor_process s = Some (Ok tt, s') /\
       status_var (self s') =
         (if _stop_event (self s) then "VM stopped" else "VM exited") /\
       _vm_process (self s') = Some {| pid := pid p; returncode := Some rc |} /\
       processes s' = processes s /\ dialogs s' = dialogs s).
Proof.
  split.
  - intros (p & Hp & Hrc & Hex). unfold _monitor_process.
    now rewrite Hp, (poll_running s p Hp Hrc Hex).
  - intros p rc Hp Hrc Hex.
    rewrite (_monitor_process_exited s p rc Hp Hrc Hex).
    eexists. repeat split; reflexivity.
Qed.

(** An exit after a stop request is reported as a stop: when [stop_vm] was
    called on a running VM and the process then exits, the monitor thread
    reports [VM stopped]. *)
Theorem exit_after_stop_is_reported_as_stop (h : Host) (s : State) (p : Popen)
    (pr : Process) (rc : Z) :
  _vm_process (self s) = Some p ->
  returncode p = None ->
  processes s !! pid p = Some pr ->
  exit_status pr = None ->
  exists s',
    _monitor_process (process_exits (pid p) rc (state_after (stop_vm h) s))
      = Some (Ok tt, s') /\
    status_var (self s') = "VM stopped".
Proof.
  intros Hp Hrc Hpr Hex.
  assert (Hlook : processes s !! pid p ≫= exit_status = None)
    by (rewrite Hpr; exact Hex).
  pose proof (stop_vm_running h s p Hp Hrc Hlook) as Hstop. simpl in Hstop.
  set (s1 := state_after (stop_vm h) s).
  assert (H1 : _vm_process (self s1) = Some p /\ _stop_event (self s1) = true /\
               exists pr1, processes s1 !! pid p = Some pr1).
  { subst s1. unfold state_after. rewrite Hstop.
    destruct (kill_raises h (pid p) SIGINT);
      [destruct (kill_raises h (pid p) SIGTERM) |]; simpl;
      repeat split; auto; rewrite ?list_lookup_alter_eq, Hpr; simpl; eauto. }
  destruct H1 as (Hp1 & Hev & pr1 & Hpr1).
  rewrite (_monitor_process_exited (process_exits (pid p) rc s1) p rc); auto.
  - eexists. split; [reflexivity |]. simpl. now rewrite Hev.
  - simpl. rewrite list_lookup_alter_eq, Hpr1. reflexivity.
Qed.

(** The same at the fresh manager once it has started its VM. *)
Lemma exit_after_stop_is_reported_as_stop_witness :
  exists s',
    _monitor_process
      (process_exits (pid {| pid := 0; returncode := None |}) 130
         (state_after (stop_vm empty_host) running_state))
      = Some (Ok tt, s') /\
    status_var (self s') = "VM stopped".
Proof.
  apply (exit_after_stop_is_reported_as_stop empty_host running_state
           {| pid := 0; returncode := None |}
           {| args := ["qemu-system-x86_64"; "-machine"; "q35"; "-m"; "2048";
                       "-smp"; "2"; "-cpu"; "v4004"];
              signals := []; exit_status := None |} 130);
    reflexivity.
Defined.

(** An exit without a stop request is reported as an exit: when [start_vm]
    has launched the VM and its process exits, the monitor thread reports
    [VM exited], whatever the stop event was before the start. *)
Theorem exit_without_stop_is_reported_as_exit (h : Host) (s : State)
    (cfg : VMConfig) (rc : Z) :
  ~ vm_running s ->
  _build_config h s = (Ok (Some cfg), s) ->
  popen_outcome h (build_command cfg) = Spawns ->
  exists s',
    _monitor_process
      (process_exits (length (processes s)) rc (state_after (start_vm h) s))
      = Some (Ok tt, s') /\
    status_var (self s') = "VM exited".
Proof.
  intros Hnot Hcfg Hspawn.
  pose proof (refresh_frame s) as (Hps & _).
  set (s1 := state_after (start_vm h) s).
  assert (H1 : _vm_process (self s1)
                 = Some {| pid := length (processes s); returncode := None |} /\
               _stop_event (self s1) = false /\
               exists pr1, processes s1 !! length (processes s) = Some pr1).
  { subst s1. unfold state_after.
    rewrite (start_vm_not_running h s Hnot),
      (_build_config_refresh_Some h s cfg Hcfg), Hspawn.
    simpl. rewrite Hps. repeat split.
    rewrite lookup_app_r by reflexivity. rewrite Nat.sub_diag. eauto. }
  destruct H1 as (Hp1 & Hev & pr1 & Hpr1).
  rewrite (_monitor_process_exited
             (process_exits (length (processes s)) rc s1)
             {| pid := length (processes s); returncode := None |} rc); auto.
  - eexists. split; [reflexivity |]. simpl. now rewrite Hev.
  - simpl. rewrite list_lookup_alter_eq, Hpr1. reflexivity.
Qed.

(** The same at a manager whose stop event is still set from an earlier
    stop. *)
Lemma exit_without_stop_is_reported_as_exit_witness :
  exists s',
    _monitor_process
      (process_exits
         (length (processes (with_self (set_stop_event true) fresh_state))) 0
         (state_after (start_vm empty_host)
            (with_self (set_stop_event true) fresh_state)))
      = Some (Ok tt, s') /\
    status_var (self s') = "VM exited".
Proof.
  apply (exit_without_stop_is_reported_as_exit empty_host
           (with_self (set_stop_event true) fresh_state)
           {| binary := Path_of "qemu-system-x86_64"; disk_image := None;
              memory_mb := 2048; cpu_count := 2; cpu_model := "v4004";
              bios := None; machine := "q35" |} 0).
  - intros (p & Hp & _). vm_compute in Hp. discriminate.
  - vm_compute. reflexivity.
  - reflexivity.
Defined.

(** ** Paths through the form: [Path(str(p))] *)

Lemma split_no_sep (w : string) :
  Py.has_char os_sep w = false -> Py.split os_sep w = [w].
Proof.
  induction w as [| a w IH]; simpl; [reflexivity |].
  destruct (decide (a = os_sep)) as [-> | Hne]; [discriminate |].
  intros Hw. now rewrite IH.
Qed.

Lemma split_app_sep (w rest : string) :
  Py.has_char os_sep w = false ->
  Py.split os_sep (w +:+ String os_sep rest) = w :: Py.split os_sep rest.
Proof.
  induction w as [| a w IH].
  - intros _. change ("" +:+ String os_sep rest) with (String os_sep rest).
    simpl. destruct (decide (os_sep = os_sep)); [reflexivity | congruence].
  - change (String a w +:+ String os_sep rest)
      with (String a (w +:+ String os_sep rest)).
    simpl. destruct (decide (a = os_sep)) as [-> | Hne]; [discriminate |].
    intros Hw. now rewrite (IH Hw).
Qed.

Lemma split_join (t : list string) :
  Forall wf_component t -> t <> [] ->
  Py.split os_sep (Py.join "/" t) = t.
Proof.
  induction 1 as [| w t (_ & _ & Hw) Ht IH]; [congruence |]. intros _.
  destruct t as [| w2 t].
  - simpl. now apply split_no_sep.
  - change (Py.join "/" (w :: w2 :: t))
      with (w +:+ String os_sep (Py.join "/" (w2 :: t))).
    rewrite (split_app_sep _ _ Hw), IH by discriminate. reflexivity.
Qed.

Lemma filter_wf_components (t : list string) :
  Forall wf_component t ->
  filter (fun x => x <> "" /\ x <> ".") t = t.
Proof.
  induction 1 as [| w t (H1 & H2 & _) _ IH]; [reflexivity |].
  rewrite filter_cons_True by auto. now rewrite IH.
Qed.

(** A string that starts with a component does not start with a slash. *)
Lemma join_no_leading_sep (t : list string) :
  Forall wf_component t -> Py.startswith (Py.join "/" t) "/" = false.
Proof.
  destruct 1 as [| w t (Hne & _ & Hw) _]; [reflexivity |].
  destruct w as [| a w]; [congruence |].
  simpl in Hw. destruct (decide (a = os_sep)) as [-> | Hne']; [discriminate |].
  destruct t; simpl;
    (destruct (decide ("/"%char = a)) as [<- | _];
     [exfalso; apply Hne'; reflexivity | reflexivity]).
Qed.

(** Parsing the string of a well-formed path gives the path back: what
    the manager writes into a form field as [str(p)] is read from it as
    [p]. *)
Lemma Path_of_Path_str (p : Path) : wf_path p -> Path_of (Path_str p) = p.
Proof.
  destruct p as [r t]. intros [Hr Ht]. simpl in Hr, Ht.
  pose proof (join_no_leading_sep t Ht) as Hlead.
  set (J := Py.join "/" t) in *.
  assert (Hsplit : t <> [] ->
            filter (fun x => x <> "" /\ x <> ".") (Py.split os_sep J) = t).
  { intros Hne. subst J. rewrite split_join by assumption.
    now apply filter_wf_components. }
  assert (Hnil : forall s, Py.startswith s "" = true) by (intros []; reflexivity).
  assert (H1 : Py.startswith (String os_sep J) "/" = true).
  { simpl. auto. }
  assert (H2 : Py.startswith (String os_sep J) "//" = false).
  { simpl. auto. }
  assert (H3 : Py.startswith (String os_sep (String os_sep J)) "/" = true).
  { simpl. auto. }
  assert (H4 : Py.startswith (String os_sep (String os_sep J)) "//" = true).
  { simpl. auto. }
  assert (H5 : Py.startswith (String os_sep (String os_sep J)) "///" = false).
  { simpl. auto. }
  assert (Hs1 : Py.split os_sep (String os_sep J) = "" :: Py.split os_sep J).
  { reflexivity. }
  assert (Hs2 : Py.split os_sep (String os_sep (String os_sep J))
                = "" :: "" :: Py.split os_sep J).
  { reflexivity. }
  destruct Hr as [-> | [-> | ->]].
  - destruct t as [| w t]; [reflexivity |].
    change (Path_str {| root := ""; _tail := w :: t |}) with J.
    unfold Path_of. rewrite Hlead, Hsplit by discriminate. reflexivity.
  - change (Path_str {| root := "/"; _tail := t |}) with (String os_sep J).
    unfold Path_of. rewrite H1, H2, Hs1.
    rewrite filter_cons_False by (intros [H _]; congruence).
    destruct t as [| w t]; [reflexivity |].
    rewrite Hsplit by discriminate. reflexivity.
  - change (Path_str {| root := "//"; _tail := t |})
      with (String os_sep (String os_sep J)).
    unfold Path_of. rewrite H3, H4, H5, Hs2.
    rewrite !filter_cons_False by (intros [H _]; congruence).
    destruct t as [| w t]; [reflexivity |].
    rewrite Hsplit by discriminate. reflexivity.
Qed.

Lemma split_components_no_sep (s : string) :
  Forall (fun w => Py.has_char os_sep w = false) (Py.split os_sep s).
Proof.
  induction s as [| a s IH]; simpl; [repeat constructor |].
  destruct (decide (a = os_sep)) as [-> | Hne]; [constructor; auto |].
  destruct (Py.split os_sep s) as [| w ws]; [repeat constructor |].
  - simpl. destruct (decide (a = os_sep)); [contradiction | reflexivity].
  - inversion IH as [| ? ? Hw Hws]; subst. constructor; [| exact Hws].
    simpl. destruct (decide (a = os_sep)); [contradiction | exact Hw].
Qed.

(** Every path [Path] makes of a string is well formed. *)
Lemma Path_of_wf (s : string) : wf_path (Path_of s).
Proof.
  unfold Path_of, wf_path. simpl. split.
  - destruct (negb (Py.startswith s "/")); [auto |].
    destruct (Py.startswith s "//" && negb (Py.startswith s "///")); auto.
  - pose proof (split_components_no_sep s) as Hsplit.
    induction Hsplit as [| w ws Hw _ IH]; [constructor |].
    destruct (decide (w <> "" /\ w <> ".")) as [[H1 H2] | Hno].
    + rewrite filter_cons_True by auto. constructor; [| exact IH].
      repeat split; assumption.
    + rewrite filter_cons_False by exact Hno. exact IH.
Qed.

Lemma Path_str_nonempty (p : Path) : wf_path p -> Path_str p <> "".
Proof.
  destruct p as [r t]. intros [Hr Ht]. simpl in Hr, Ht. unfold Path_str. simpl.
  destruct Hr as [-> | [-> | ->]]; [| discriminate | discriminate].
  destruct Ht as [| w t (Hne & _) _]; [discriminate |].
  destruct w as [| a w]; [congruence |].
  destruct t; discriminate.
Qed.


(** ** Loading a descriptor: what changes and what reaches the
    configuration *)




(** A descriptor that cannot be opened is loaded without a word: no box is
    shown, the status reads [Loaded VMX configuration], and the disk field
    names the descriptor. *)
Theorem unreadable_descriptor_loads_silently (h : Host) (vmx_path : Path)
    (s : State) (e : Exn) :
  fs_read h vmx_path = Fails e ->
  parser_catches e = true ->
  _apply_vmx_config h vmx_path s =
    (Ok tt,
     with_self
       (fun m =>
          set_status_var "Loaded VMX configuration"
            (set_disk_var (Path_str vmx_path) m))
       s).
Proof.
  intros Hread Hcatch.
  assert (Hparse : _parse_vmx_file h vmx_path = Ok ∅).
  { unfold _parse_vmx_file. rewrite Hread. simpl. now rewrite Hcatch. }
  unfold _apply_vmx_config, bind, lift, update_self, ret.
  rewrite Hparse. rewrite !lookup_empty. reflexivity.
Qed.

(** The same at a descriptor that does not exist. *)
Lemma unreadable_descriptor_loads_silently_witness :
  _apply_vmx_config empty_host (Path_of "/vm/none.vmx") fresh_state =
    (Ok tt,
     with_self
       (fun m =>
          set_status_var "Loaded VMX configuration"
            (set_disk_var (Path_str (Path_of "/vm/none.vmx")) m))
       fresh_state).
Proof.
  apply (unreadable_descriptor_loads_silently empty_host (Path_of "/vm/none.vmx")
           fresh_state (MkExn FileNotFoundError "No such file or directory"));
    reflexivity.
Defined.



(** The scenario, run: the VM started after the descriptor was loaded gets
    4096 MB, four vCPUs and the disk through the virtio drive. *)
Example scenario_command :
  args <$> child
    (state_after (start_vm scenario_host)
       (state_after (_choose_disk scenario_host "/vm/guest.vmx") fresh_state)) =
  Some ["qemu-system-x86_64"; "-machine"; "q35"; "-m"; "4096"; "-smp"; "4";
        "-cpu"; "v4004"; "-drive"; "file=/vm/disk.qcow2,if=virtio,format=qcow2"].
Proof. vm_compute. reflexivity. Qed.

(** ** The file dialogs *)

(** A disk image chosen in the dialog reaches the configuration: for a
    chosen name that is no descriptor, [_choose_disk] stores the name in
    the disk field and resets the status, and every configuration built
    from the form then has the path of that name (user-expanded, and found
    to exist) as its disk image. *)
Theorem chosen_disk_reaches_config (h : Host) (selected : string) (s : State) :
  selected <> "" ->
  Py.lower (suffix (Path_of selected)) <> ".vmx" ->
  _choose_disk h selected s =
    (Ok tt,
     with_self (fun m => set_status_var "Ready" (set_disk_var selected m)) s) /\
  forall cfg s',
    _build_config h
      (with_self (fun m => set_status_var "Ready" (set_disk_var selected m)) s)
      = (Ok (Some cfg), s') ->
    exists d,
      expanduser h (Path_of selected) = Ok d /\ fs_exists h d = true /\
      disk_image cfg = Some d.
Proof.
  intros Hne Hvmx. split.
  - unfold _choose_disk. rewrite (bool_decide_true _ Hne).
    destruct (decide (Py.lower (suffix (Path_of selected)) = ".vmx"));
      [contradiction | reflexivity].
  - intros cfg s' Hcfg. apply _build_config_Some in Hcfg.
    destruct Hcfg as (_ & _ & _ & _ & _ & _ & _ & _ & _ & Hd & _).
    exact (Hd Hne).
Qed.

(** The same at an image in the home directory of the user. *)
Lemma chosen_disk_reaches_config_witness :
  _choose_disk (sample_host [] [Path_of "/home/user/disk.img"] ∅)
    "~/disk.img" fresh_state =
    (Ok tt,
     with_self (fun m => set_status_var "Ready" (set_disk_var "~/disk.img" m))
       fresh_state) /\
  forall cfg s',
    _build_config (sample_host [] [Path_of "/home/user/disk.img"] ∅)
      (with_self (fun m => set_status_var "Ready" (set_disk_var "~/disk.img" m))
         fresh_state)
      = (Ok (Some cfg), s') ->
    exists d,
      expanduser (sample_host [] [Path_of "/home/user/disk.img"] ∅)
        (Path_of "~/disk.img") = Ok d /\
      fs_exists (sample_host [] [Path_of "/home/user/disk.img"] ∅) d = true /\
      disk_image cfg = Some d.
Proof.
  apply (chosen_disk_reaches_config
           (sample_host [] [Path_of "/home/user/disk.img"] ∅)
           "~/disk.img" fresh_state).
  - discriminate.
  - vm_compute. discriminate.
Defined.

(** A cancelled dialog changes nothing, whichever of the three it is. *)
Lemma cancelled_dialog_changes_nothing (h : Host) (s : State) :
  _choose_binary "" s = (Ok tt, s) /\
  _choose_disk h "" s = (Ok tt, s) /\
  _choose_bios "" s = (Ok tt, s).
Proof. repeat split. Qed.

(** ** A freshly constructed manager *)

Lemma joinpath_wf (p q : Path) : wf_path p -> wf_path q -> wf_path (p // q).
Proof.
  intros [Hr Ht] [Hr' Ht']. unfold joinpath.
  destruct (is_absolute q); [split; assumption |].
  split; [exact Hr | simpl; apply Forall_app; auto].
Qed.

Lemma parent_wf (p : Path) : wf_path p -> wf_path (parent p).
Proof.
  intros [Hr Ht]. split; [exact Hr |]. simpl.
  induction Ht as [| w t Hw Ht IH]; [constructor |].
  destruct t as [| w2 t]; [constructor |].
  change (removelast (w :: w2 :: t)) with (w :: removelast (w2 :: t)).
  constructor; assumption.
Qed.

(** The firmware the locator finds is a well-formed path, on a host whose
    own paths are. *)
Lemma find_bios_in_wf (h : Host) (dirs : list Path) (b : Path) :
  Forall wf_path dirs -> find_bios_in h dirs = Some b -> wf_path b.
Proof.
  induction 1 as [| d dirs Hd _ IH]; simpl; [discriminate |].
  destruct (fs_is_file h (d // Path_of DEFAULT_BIOS_NAME)); [| exact IH].
  intros [= <-]. apply joinpath_wf; [exact Hd | apply Path_of_wf].
Qed.

Lemma DEFAULT_BIOS_DIRS_wf (h : Host) :
  wf_path (module_file h) -> wf_path (home h) ->
  Forall wf_path (DEFAULT_BIOS_DIRS h).
Proof.
  intros Hmod Hhome. unfold DEFAULT_BIOS_DIRS.
  constructor.
  { apply joinpath_wf; [| apply Path_of_wf]. now do 2 apply parent_wf. }
  constructor; [apply Path_of_wf |].
  constructor.
  { repeat (apply joinpath_wf; [| apply Path_of_wf]). exact Hhome. }
  constructor; [apply Path_of_wf |].
  constructor; [apply Path_of_wf | constructor].
Qed.

Lemma _find_default_bios_wf (h : Host) (b : Path) :
  wf_path (module_file h) -> wf_path (home h) ->
  _find_default_bios h = Some b -> wf_path b.
Proof.
  intros Hmod Hhome. apply find_bios_in_wf. now apply DEFAULT_BIOS_DIRS_wf.
Qed.

(** A manager fresh from its constructor has no process and has shown no
    box; its binary field holds [BEMU_BINARY], or else [QEMU_BINARY], or
    else the stock command name.  Every configuration built from it, on a
    host with well-formed paths, has the default memory size, vCPU count,
    CPU model and machine type and no disk, and as firmware the image the
    locator found (when user expansion leaves its path alone), or none
    when the locator found none. *)
Theorem fresh_manager_configuration (h : Host) :
  let s := VMManager_init h in
  ~ vm_running s /\ processes s = [] /\ dialogs s = [] /\
  binary_var (self s) =
    default (default "qemu-system-x86_64" (environ h !! "QEMU_BINARY"))
            (environ h !! "BEMU_BINARY") /\
  forall cfg s',
    _build_config h s = (Ok (Some cfg), s') ->
    memory_mb cfg = DEFAULT_MEMORY /\ cpu_count cfg = DEFAULT_CPU_COUNT /\
    cpu_model cfg = DEFAULT_CPU_NAME /\ machine cfg = DEFAULT_MACHINE /\
    disk_image cfg = None /\
    (_find_default_bios h = None -> bios cfg = None) /\
    (forall b,
       _find_default_bios h = Some b ->
       wf_path (module_file h) -> wf_path (home h) ->
       expanduser h b = Ok b ->
       bios cfg = Some b).
Proof.
  intros s. subst s.
  unfold VMManager_init, state_after, _populate_defaults, bind, update_self, ret.
  destruct (_find_default_bios h) as [b |] eqn:Hfind; simpl.
  - split; [intros (p & Hp & _); discriminate |].
    do 3 (split; [reflexivity |]).
    intros cfg s' Hcfg. apply _build_config_Some in Hcfg.
    destruct Hcfg as (_ & Hm & Hc & _ & _ & _ & Hcpu & Hmach & Hd & _ & _ & Hb).
    simpl in Hm, Hc, Hcpu, Hmach, Hd, Hb.
    injection Hm as <-. injection Hc as <-.
    do 2 (split; [reflexivity |]).
    split; [exact Hcpu |]. split; [exact Hmach |]. split; [exact (Hd eq_refl) |].
    split; [discriminate |].
    intros b' [= <-] Hmod Hhome Hexp.
    pose proof (_find_default_bios_wf h b Hmod Hhome Hfind) as Hwf.
    destruct (Hb (Path_str_nonempty b Hwf)) as (b' & Hexp' & _ & Hbios).
    rewrite (Path_of_Path_str b Hwf), Hexp in Hexp'. congruence.
  - split; [intros (p & Hp & _); discriminate |].
    do 3 (split; [reflexivity |]).
    intros cfg s' Hcfg. apply _build_config_Some in Hcfg.
    destruct Hcfg as (_ & Hm & Hc & _ & _ & _ & Hcpu & Hmach & Hd & _ & Hb & _).
    simpl in Hm, Hc, Hcpu, Hmach, Hd, Hb.
    injection Hm as <-. injection Hc as <-.
    do 2 (split; [reflexivity |]).
    split; [exact Hcpu |]. split; [exact Hmach |]. split; [exact (Hd eq_refl) |].
    split; [intros _; exact (Hb eq_refl) | discriminate].
Qed.

(** A manager constructed on a host with a system firmware image, and the
    VM it starts. *)
Example fresh_manager_with_firmware :
  let h := sample_host [] [Path_of "/usr/share/seabios/bios.bin"]
             {[ "QEMU_BINARY" := "qemu-kvm"; "BEMU_BINARY" := "bemu" ]} in
  binary_var (self (VMManager_init h)) = "bemu" /\
  bios_var (self (VMManager_init h)) = "/usr/share/seabios/bios.bin" /\
  args <$> child (state_after (start_vm h) (VMManager_init h)) =
    Some ["bemu"; "-machine"; "q35"; "-m"; "2048"; "-smp"; "2"; "-cpu"; "v4004";
          "-bios"; "/usr/share/seabios/bios.bin"].
Proof. repeat split; vm_compute; reflexivity. Qed.

(** ** The process object and the process table *)




(** When neither signal can be sent, [stop_vm] raises what sending
    [SIGTERM] raised.  The VM is marked as stopping all the same and the
    polling callback is registered, but no signal has reached the process:
    the status stays [Stopping VM...] for as long as the process runs. *)
Theorem stop_vm_both_signals_fail (h : Host) (s : State) (p : Popen)
    (e1 e2 : Exn) :
  _vm_process (self s) = Some p ->
  returncode p = None ->
  processes s !! pid p ≫= exit_status = None ->
  kill_raises h (pid p) SIGINT = Some e1 ->
  kill_raises h (pid p) SIGTERM = Some e2 ->
  let s1 := state_after (stop_vm h) s in
  stop_vm h s = (Raise e2, s1) /\
  processes s1 = processes s /\
  status_var (self s1) = "Stopping VM..." /\
  after_queue s1 = after_queue s ++ [(100%nat, finalize_stop_callback)] /\
  (after_queue s = [] ->
   forall n, status_var (self (run_callbacks n s1)) = "Stopping VM...").
Proof.
  intros Hp Hrc Hex H1 H2 s1. subst s1. unfold state_after.
  pose proof (stop_vm_running h s p Hp Hrc Hex) as Hstop. simpl in Hstop.
  rewrite Hstop, H1, H2. simpl. repeat split.
  intros Hq n. rewrite run_callbacks_while_running.
  - reflexivity.
  - exists p. auto.
  - simpl. now rewrite Hq.
Qed.

(** The same at a running VM on a host that lets no signal through. *)
Lemma stop_vm_both_signals_fail_witness :
  let s1 := state_after (stop_vm no_signal_host) running_state in
  stop_vm no_signal_host running_state
    = (Raise (MkExn OSError "Operation not permitted"), s1) /\
  processes s1 = processes running_state /\
  status_var (self s1) = "Stopping VM..." /\
  after_queue s1 = after_queue running_state ++ [(100%nat, finalize_stop_callback)] /\
  (after_queue running_state = [] ->
   forall n, status_var (self (run_callbacks n s1)) = "Stopping VM...").
Proof.
  apply (stop_vm_both_signals_fail no_signal_host running_state
           {| pid := 0; returncode := None |}
           (MkExn OSError "Operation not permitted")
           (MkExn OSError "Operation not permitted"));
    reflexivity.
Defined.
